(** * LicenseChain Seller API: webhook signature verification and dispatch

    A shallow embedding of [src/utils/webhook.ts] (class [WebhookHandler] and
    the module-level helpers) and of the two handlers of
    [src/routes/webhooks.ts], together with the parts of the Node.js runtime
    they call: [Buffer.from(_, 'hex')], [digest('hex')],
    [crypto.timingSafeEqual], [crypto.createHmac('sha256', _)], [parseInt],
    [JSON.stringify] and the strict (in)equality of strings.

    Conventions.
    - A JavaScript string is a [string].  Header values hold one Latin-1 code
      unit per character (as Node delivers them); body text and secrets are
      held UTF-8 encoded, which is the byte sequence that
      [update(payload, 'utf8')] feeds to the hash.
    - A [Buffer] is a [list byte].
    - A JavaScript number is [NaN] or an exact integer; the rounding of
      integers beyond 2^53 to doubles is not modelled.
    - A function that may throw returns a [completion]. *)

From Stdlib Require Import ZArith NArith List String Ascii Bool Lia DecimalString.
From Stdlib.Strings Require Import Byte.
From Stdlib Require Import DecimalZ DecimalPos.
From stdpp Require Import base option gmap strings.
Import ListNotations.

Local Open Scope Z_scope.
Set Warnings "-register-all".

(** ** Completions: normal return or a thrown exception *)

Inductive exn : Type :=
| RangeError (msg : string)
| TypeError (msg : string).

Inductive completion (A : Type) : Type :=
| Return (a : A)
| Throw (e : exn).
Arguments Return {A} a.
Arguments Throw {A} e.

#[global] Instance completion_ret : MRet completion := fun A a => Return a.
#[global] Instance completion_bind : MBind completion := fun A B k c =>
  match c with
  | Return a => k a
  | Throw e => Throw e
  end.
#[global] Instance completion_fmap : FMap completion := fun A B f c =>
  match c with
  | Return a => Return (f a)
  | Throw e => Throw e
  end.

(** ** Buffers and the 'hex' encoding *)

Abbreviation Buffer := (list byte).

Definition Z_of_byte (b : byte) : Z := Z.of_N (Byte.to_N b).

Definition byte_of_Z (z : Z) : byte :=
  match Byte.of_N (Z.to_N (z mod 256)) with
  | Some b => b
  | None => x00
  end.

(** [update(s, 'utf8')] on a string already held as UTF-8 text. *)
Definition utf8 (s : string) : Buffer := list_byte_of_string s.

(** One lowercase hexadecimal digit, as [digest('hex')] prints it. *)
Definition hex_digit (n : Z) : ascii :=
  if n <? 10 then ascii_of_N (Z.to_N (48 + n)) else ascii_of_N (Z.to_N (87 + n)).

(** [buf.toString('hex')] / [digest('hex')]. *)
Fixpoint hex_encode (b : Buffer) : string :=
  match b with
  | [] => EmptyString
  | x :: rest =>
      String (hex_digit (Z_of_byte x / 16))
        (String (hex_digit (Z_of_byte x mod 16)) (hex_encode rest))
  end.

(** Node's [unhex]: the value of a hexadecimal digit of either case. *)
Definition unhex (c : ascii) : option Z :=
  let n := Z.of_N (N_of_ascii c) in
  if (48 <=? n) && (n <=? 57) then Some (n - 48)
  else if (97 <=? n) && (n <=? 102) then Some (n - 87)
  else if (65 <=? n) && (n <=? 70) then Some (n - 55)
  else None.

(** [Buffer.from(s, 'hex')]: pairs of digits are decoded from the left; the
    decoding stops, keeping what was decoded, at the first pair that is not
    two hexadecimal digits; a trailing single character is dropped. *)
Fixpoint Buffer_from_hex (s : string) : Buffer :=
  match s with
  | String hi (String lo rest) =>
      match unhex hi, unhex lo with
      | Some a, Some b => byte_of_Z (16 * a + b) :: Buffer_from_hex rest
      | _, _ => []
      end
  | _ => []
  end.

(** ** Comparators, with the number of positions they examine

    [crypto.timingSafeEqual] throws when the byte lengths differ and
    otherwise runs [CRYPTO_memcmp], which folds every byte pair into an
    accumulator.  The strict equality of two strings compares the lengths
    and then scans from the left up to the first differing position.  The
    second component counts the positions read. *)

Fixpoint memcmp_scan (a b : Buffer) (acc : bool) (n : nat) : bool * nat :=
  match a, b with
  | x :: a', y :: b' => memcmp_scan a' b' (acc && Byte.eqb x y) (S n)
  | _, _ => (acc, n)
  end.

Definition timingSafeEqual_scan (a b : Buffer) : completion (bool * nat) :=
  if Nat.eqb (List.length a) (List.length b)
  then Return (memcmp_scan a b true O)
  else Throw (RangeError "Input buffers must have the same byte length").

Definition timingSafeEqual (a b : Buffer) : completion bool :=
  fst <$> timingSafeEqual_scan a b.

Fixpoint early_exit_scan (s t : string) (n : nat) : bool * nat :=
  match s, t with
  | String c s', String d t' =>
      if Ascii.eqb c d then early_exit_scan s' t' (S n) else (false, S n)
  | _, _ => (true, n)
  end.

Definition strict_eq_scan (s t : string) : bool * nat :=
  if Nat.eqb (String.length s) (String.length t)
  then early_exit_scan s t O
  else (false, O).

(** [a === b] on strings. *)
Definition strict_eq (s t : string) : bool := fst (strict_eq_scan s t).

(** [x !== y] where [x] may be [undefined] (an absent header) and [y] is a
    string: values of different types are never strictly equal. *)
Definition strict_neq (x : option string) (y : string) : bool :=
  match x with
  | Some s => negb (strict_eq s y)
  | None => true
  end.

(** ** SHA-256 (FIPS 180-4) and HMAC (RFC 2104), as the [crypto] module
    computes them *)

Module SHA256.

Definition w32 (x : Z) : Z := x mod 2 ^ 32.
Definition add32 (x y : Z) : Z := w32 (x + y).
Definition rotr (n x : Z) : Z := Z.lor (Z.shiftr x n) (w32 (Z.shiftl x (32 - n))).
Definition shr (n x : Z) : Z := Z.shiftr x n.
Definition not32 (x : Z) : Z := 2 ^ 32 - 1 - x.

Definition Ch (x y z : Z) : Z := Z.lxor (Z.land x y) (Z.land (not32 x) z).
Definition Maj (x y z : Z) : Z :=
  Z.lxor (Z.lxor (Z.land x y) (Z.land x z)) (Z.land y z).
Definition Sigma0 (x : Z) : Z := Z.lxor (Z.lxor (rotr 2 x) (rotr 13 x)) (rotr 22 x).
Definition Sigma1 (x : Z) : Z := Z.lxor (Z.lxor (rotr 6 x) (rotr 11 x)) (rotr 25 x).
Definition sigma0 (x : Z) : Z := Z.lxor (Z.lxor (rotr 7 x) (rotr 18 x)) (shr 3 x).
Definition sigma1 (x : Z) : Z := Z.lxor (Z.lxor (rotr 17 x) (rotr 19 x)) (shr 10 x).

(** The round constants are the first 32 bits of the fractional parts of
    the cube roots of the first 64 primes, and the initial hash value those
    of the square roots of the first 8 primes. *)

Definition is_prime (n : Z) : bool :=
  forallb (fun d => negb (n mod Z.of_nat d =? 0)) (seq 2 (Z.to_nat n - 2)).

Definition primes : list Z :=
  filter is_prime (map Z.of_nat (seq 2 310)).

(** The integer cube root, one bit at a time from bit [n - 1] down. *)
Fixpoint cube_root (n : nat) (x root : Z) : Z :=
  match n with
  | O => root
  | S n' =>
      let r := root + 2 ^ Z.of_nat n' in
      if r * r * r <=? x then cube_root n' x r else cube_root n' x root
  end.

Definition K : list Z :=
  Eval vm_compute in map (fun p => w32 (cube_root 36 (p * 2 ^ 96) 0)) primes.

Record state : Type := mkState {
  ha : Z; hb : Z; hc : Z; hd : Z; he : Z; hf : Z; hg : Z; hh : Z
}.

Definition state_of (ws : list Z) : state :=
  mkState (nth 0 ws 0) (nth 1 ws 0) (nth 2 ws 0) (nth 3 ws 0)
          (nth 4 ws 0) (nth 5 ws 0) (nth 6 ws 0) (nth 7 ws 0).

Definition H0 : state :=
  Eval vm_compute in state_of (map (fun p => w32 (Z.sqrt (p * 2 ^ 64))) (firstn 8 primes)).

(** Big-endian words of a 64-byte block. *)
Fixpoint words (bs : Buffer) : list Z :=
  match bs with
  | b3 :: b2 :: b1 :: b0 :: rest =>
      (Z_of_byte b3 * 2 ^ 24 + Z_of_byte b2 * 2 ^ 16 + Z_of_byte b1 * 2 ^ 8 + Z_of_byte b0)
        :: words rest
  | _ => []
  end.

(** The message schedule, most recent word first: [n] further words are
    derived from the sixteen before them. *)
Fixpoint extend (n : nat) (rw : list Z) : list Z :=
  match n with
  | O => rw
  | S n' =>
      let w := add32 (add32 (sigma1 (nth 1 rw 0)) (nth 6 rw 0))
                     (add32 (sigma0 (nth 14 rw 0)) (nth 15 rw 0)) in
      extend n' (w :: rw)
  end.

Definition schedule (block : Buffer) : list Z :=
  rev (extend 48 (rev (words block))).

Definition round (s : state) (kw : Z * Z) : state :=
  let t1 := add32 (add32 (add32 (hh s) (Sigma1 (he s))) (Ch (he s) (hf s) (hg s)))
                  (add32 (fst kw) (snd kw)) in
  let t2 := add32 (Sigma0 (ha s)) (Maj (ha s) (hb s) (hc s)) in
  mkState (add32 t1 t2) (ha s) (hb s) (hc s) (add32 (hd s) t1) (he s) (hf s) (hg s).

Definition compress (s : state) (block : Buffer) : state :=
  let r := fold_left round (combine K (schedule block)) s in
  mkState (add32 (ha s) (ha r)) (add32 (hb s) (hb r)) (add32 (hc s) (hc r))
          (add32 (hd s) (hd r)) (add32 (he s) (he r)) (add32 (hf s) (hf r))
          (add32 (hg s) (hg r)) (add32 (hh s) (hh r)).

Definition be_bytes (n : nat) (x : Z) : Buffer :=
  map (fun i => byte_of_Z (Z.shiftr x (8 * Z.of_nat i))) (rev (seq 0 n)).

(** Padding: a 1 bit, zeros up to 56 modulo 64, the bit length on 8 bytes. *)
Definition pad (m : Buffer) : Buffer :=
  let len := Z.of_nat (List.length m) in
  m ++ [x80] ++ repeat x00 (Z.to_nat ((55 - len) mod 64)) ++ be_bytes 8 (8 * len).

Fixpoint blocks (n : nat) (bs : Buffer) (s : state) : state :=
  match n with
  | O => s
  | S n' => blocks n' (skipn 64 bs) (compress s (firstn 64 bs))
  end.

Definition output (s : state) : Buffer :=
  be_bytes 4 (ha s) ++ be_bytes 4 (hb s) ++ be_bytes 4 (hc s) ++ be_bytes 4 (hd s) ++
  be_bytes 4 (he s) ++ be_bytes 4 (hf s) ++ be_bytes 4 (hg s) ++ be_bytes 4 (hh s).

Definition sha256 (m : Buffer) : Buffer :=
  let p := pad m in
  output (blocks (Nat.div (List.length p) 64) p H0).

Definition xor_byte (c : Z) (b : byte) : byte := byte_of_Z (Z.lxor c (Z_of_byte b)).

(** [createHmac('sha256', key).update(msg).digest()]. *)
Definition hmac (key msg : Buffer) : Buffer :=
  let k0 := if (64 <? Z.of_nat (List.length key)) then sha256 key else key in
  let k := k0 ++ repeat x00 (64 - List.length k0) in
  sha256 (map (xor_byte 0x5c) k ++ sha256 (map (xor_byte 0x36) k ++ msg)).

End SHA256.


(** ** Numbers, [parseInt] and the relational operators *)

Inductive number : Type :=
| NaN
| Num (z : Z).

Definition num_sub (x y : number) : number :=
  match x, y with
  | Num a, Num b => Num (a - b)
  | _, _ => NaN
  end.

Definition Math_abs (x : number) : number :=
  match x with
  | Num a => Num (Z.abs a)
  | NaN => NaN
  end.

(** [x > y]: false as soon as one side is [NaN]. *)
Definition num_gt (x y : number) : bool :=
  match x, y with
  | Num a, Num b => b <? a
  | _, _ => false
  end.

(** [ToNumber] of an optional numeric property: [undefined] gives [NaN]. *)
Definition ToNumber (o : option Z) : number :=
  match o with
  | Some z => Num z
  | None => NaN
  end.

(** Reading a property of an object literal: the property may be absent
    ([None]) or present with the value [undefined] ([Some None]); both read
    as [undefined]. *)
Definition read_property {A} (p : option (option A)) : option A :=
  match p with
  | Some v => v
  | None => None
  end.

(** The white space and line terminators that fit in one Latin-1 code unit:
    TAB, LF, VT, FF, CR, SP and NBSP. *)
Definition isWhiteSpace (c : ascii) : bool :=
  let n := Z.of_N (N_of_ascii c) in
  ((9 <=? n) && (n <=? 13)) || (n =? 32) || (n =? 160).

Fixpoint trimStart (s : string) : string :=
  match s with
  | String c rest => if isWhiteSpace c then trimStart rest else s
  | EmptyString => s
  end.

Definition digit_value (radix : Z) (c : ascii) : option Z :=
  match unhex c with
  | Some d => if d <? radix then Some d else None
  | None => None
  end.

(** The value of the longest prefix of radix-[radix] digits; [None] when
    that prefix is empty. *)
Fixpoint digits (radix : Z) (s : string) (acc : option Z) : option Z :=
  match s with
  | String c rest =>
      match digit_value radix c with
      | Some d => digits radix rest (Some (radix * default 0 acc + d))
      | None => acc
      end
  | EmptyString => acc
  end.

(** [parseInt(s)] with no radix argument. *)
Definition parseInt (s : string) : number :=
  let s1 := trimStart s in
  let '(sign, s2) :=
    match s1 with
    | String "-" rest => (-1, rest)
    | String "+" rest => (1, rest)
    | _ => (1, s1)
    end in
  let '(radix, s3) :=
    match s2 with
    | String "0" (String "x" rest) => (16, rest)
    | String "0" (String "X" rest) => (16, rest)
    | _ => (10, s2)
    end in
  match digits radix s3 None with
  | Some m => Num (sign * m)
  | None => NaN
  end.

(** ** JSON values, property access, [ToString] and [JSON.stringify]

    An object lists its own properties in enumeration order.  Numbers are
    the integers that a double holds exactly and that print in plain
    decimal, those of magnitude below 2^53; [JNum n] for a larger [n]
    stands for no value of the program. *)

Inductive json : Type :=
| JNull
| JBool (b : bool)
| JNum (n : Z)
| JStr (s : string)
| JArr (items : list json)
| JObj (props : list (string * json)).

Fixpoint assoc (k : string) (props : list (string * json)) : option json :=
  match props with
  | [] => None
  | (k', v) :: rest => if String.eqb k k' then Some v else assoc k rest
  end.

(** [v.k] where [v] may be [undefined] ([None]): reading a property of
    [undefined] or [null] throws; the keys read by this code exist on no
    primitive or array. *)
Definition get (v : option json) (k : string) : completion (option json) :=
  match v with
  | None => Throw (TypeError ("Cannot read properties of undefined (reading '" +:+ k +:+ "')"))
  | Some JNull => Throw (TypeError ("Cannot read properties of null (reading '" +:+ k +:+ "')"))
  | Some (JObj props) => Return (assoc k props)
  | Some _ => Return None
  end.

Definition decimal (z : Z) : string := NilZero.string_of_int (Z.to_int z).

Definition join (sep : string) (parts : list string) : string :=
  match parts with
  | [] => EmptyString
  | p :: rest => fold_left (fun acc q => acc +:+ sep +:+ q) rest p
  end.

(** [ToString(v)] for a JSON value, as a template literal applies it.  An
    array is joined with commas, its [null] elements printing as nothing
    and the others converted in turn.  An object that has an own property
    [toString] (which, in a value parsed from JSON, is never callable) has
    no primitive value and the conversion throws; any other object prints
    through [Object.prototype.toString]. *)
Fixpoint json_ToString (v : json) : completion string :=
  match v with
  | JNull => Return "null"
  | JBool true => Return "true"
  | JBool false => Return "false"
  | JNum n => Return (decimal n)
  | JStr s => Return s
  | JArr items =>
      match
        (fix each (l : list json) : completion (list string) :=
           match l with
           | [] => Return []
           | x :: rest =>
               match (match x with JNull => Return EmptyString | _ => json_ToString x end) with
               | Throw e => Throw e
               | Return p =>
                   match each rest with
                   | Throw e => Throw e
                   | Return ps => Return (p :: ps)
                   end
               end
           end) items
      with
      | Throw e => Throw e
      | Return parts => Return (join "," parts)
      end
  | JObj props =>
      match assoc "toString" props with
      | Some _ => Throw (TypeError "Cannot convert object to primitive value")
      | None => Return "[object Object]"
      end
  end.

Definition ToString (v : option json) : completion string :=
  match v with
  | None => Return "undefined"
  | Some x => json_ToString x
  end.

Definition dquote : ascii := ascii_of_N 34.
Definition backslash : ascii := ascii_of_N 92.

(** [QuoteJSONString], one code unit at a time. *)
Definition quote_char (c : ascii) : string :=
  let n := Z.of_N (N_of_ascii c) in
  if n =? 8 then String backslash "b"
  else if n =? 9 then String backslash "t"
  else if n =? 10 then String backslash "n"
  else if n =? 12 then String backslash "f"
  else if n =? 13 then String backslash "r"
  else if n =? 34 then String backslash (String dquote EmptyString)
  else if n =? 92 then String backslash (String backslash EmptyString)
  else if n <? 32 then
    String backslash "u00" +:+ String (hex_digit (n / 16)) (String (hex_digit (n mod 16)) EmptyString)
  else String c EmptyString.

Fixpoint quote_chars (s : string) : string :=
  match s with
  | EmptyString => EmptyString
  | String c rest => quote_char c +:+ quote_chars rest
  end.

Definition quote (s : string) : string :=
  String dquote (quote_chars s) +:+ String dquote EmptyString.

(** [JSON.stringify(v)] with no replacer and no indentation. *)
Fixpoint JSON_stringify (v : json) : string :=
  match v with
  | JNull => "null"
  | JBool true => "true"
  | JBool false => "false"
  | JNum n => decimal n
  | JStr s => quote s
  | JArr items => "[" +:+ join "," (map JSON_stringify items) +:+ "]"
  | JObj props =>
      "{" +:+ join "," (map (fun kv => quote (fst kv) +:+ ":" +:+ JSON_stringify (snd kv)) props) +:+ "}"
  end.

(** ** Effects: the log and the handlers entered

    The logger of [utils/logger] is an external collaborator; a call to it
    appends an entry and returns.  [Invoke] marks the entry into one of the
    named event handlers. *)

Inductive level : Type := Info | Warn | Error.

Inductive effect : Type :=
| Log (l : level) (msg : string)
| Invoke (handler : string).

Record M (A : Type) : Type := mkM {
  effects : list effect;
  outcome : completion A
}.
Arguments mkM {A} effects outcome.
Arguments effects {A} m.
Arguments outcome {A} m.

#[global] Instance M_ret : MRet M := fun A a => mkM [] (Return a).
#[global] Instance M_bind : MBind M := fun A B k m =>
  match outcome m with
  | Return a => mkM (effects m ++ effects (k a)) (outcome (k a))
  | Throw e => mkM (effects m) (Throw e)
  end.

Definition lift {A} (c : completion A) : M A := mkM [] c.
Definition log (l : level) (msg : string) : M unit := mkM [Log l msg] (Return tt).
Definition invoke (handler : string) : M unit := mkM [Invoke handler] (Return tt).

(** [try { m } catch (error) { h }]. *)
Definition try_catch {A} (m : M A) (h : exn -> M A) : M A :=
  match outcome m with
  | Return a => m
  | Throw e => mkM (effects m ++ effects (h e)) (outcome (h e))
  end.

(** What an Express handler did with the request: it sent a JSON response
    with a status, or it called [next()]. *)
Inductive reply : Type :=
| Responded (status : Z) (body : json)
| NextCalled.

Definition handler_invoked {A} (m : M A) : Prop :=
  exists h, In (Invoke h) (effects m).

(** [!x] is false exactly for a present, non-empty string. *)
Definition truthy (x : option string) : option string :=
  match x with
  | Some EmptyString => None
  | other => other
  end.

(** [case 'k':] of a [switch] over a value that may be of any type. *)
Definition is_str (v : option json) (k : string) : bool :=
  match v with
  | Some (JStr s) => strict_eq s k
  | _ => false
  end.

(** [`${v.k}`] inside a template literal. *)
Definition field (v : option json) (k : string) : M string :=
  x ← lift (get v k); lift (ToString x).

(** The part of an Express request the handlers read.  [validationErrors]
    is what [validationResult(req)] holds after the route's
    express-validator chain has run (empty when there is none). *)
Record Request : Type := mkRequest {
  headers : gmap string string;
  body : json;
  validationErrors : list json
}.

(** ** src/utils/webhook.ts *)

Module Utils.

Record WebhookEvent : Type := mkEvent {
  ev_id : string;
  ev_type : string;
  ev_data : option json;
  ev_timestamp : string;
  ev_sellerId : string
}.

(** [tolerance] is [None] when the property is absent, [Some None] when it
    is present with the value [undefined], and [Some (Some t)] when it is
    the number [t]. *)
Record WebhookConfig : Type := mkConfig {
  secret : string;
  tolerance : option (option Z)
}.

Record WebhookHandler : Type := mkHandler {
  config : WebhookConfig
}.

(** [this.config = { tolerance: 300, ...config }]. *)
Definition constructor (cfg : WebhookConfig) : WebhookHandler :=
  mkHandler (mkConfig (secret cfg)
                      (match tolerance cfg with
                       | Some t => Some t
                       | None => Some (Some 300)
                       end)).

Definition createSignature (payload secret : string) : string :=
  hex_encode (SHA256.hmac (utf8 secret) (utf8 payload)).

Definition verifySignature (payload signature secret : string) : completion bool :=
  let expectedSignature := createSignature payload secret in
  timingSafeEqual (Buffer_from_hex signature) (Buffer_from_hex expectedSignature).

Definition unauthorized (msg : string) : reply :=
  Responded 401 (JObj [("success", JBool false); ("error", JStr msg)]).

(** [const payload = JSON.stringify(req.body)]: the signing input. *)
Definition payload (req : Request) : string := JSON_stringify (body req).

(** [now] is the value of [Date.now()], in milliseconds. *)
Definition verifyWebhook (this : WebhookHandler) (req : Request) (now : Z) : M reply :=
  try_catch
    (match truthy (headers req !! "x-licensechain-signature"),
           truthy (headers req !! "x-licensechain-timestamp") with
     | Some signature, Some timestamp =>
         let currentTime := Num (now / 1000) in
         let webhookTime := parseInt timestamp in
         if num_gt (Math_abs (num_sub currentTime webhookTime))
                   (ToNumber (read_property (tolerance (config this))))
         then
           log Warn "Webhook timestamp too old";;
           mret (unauthorized "Webhook timestamp too old")
         else
           let expectedSignature := createSignature (payload req) (secret (config this)) in
           same ← lift (timingSafeEqual (Buffer_from_hex signature)
                                        (Buffer_from_hex expectedSignature));
           if negb same
           then
             log Warn "Invalid webhook signature";;
             mret (unauthorized "Invalid webhook signature")
           else
             log Info "Webhook signature verified successfully";;
             mret NextCalled
     | _, _ =>
         log Warn "Missing webhook signature or timestamp";;
         mret (unauthorized "Missing webhook signature or timestamp")
     end)
    (fun error =>
       log Error "Error verifying webhook:";;
       mret (Responded 500 (JObj [("success", JBool false);
                                  ("error", JStr "Webhook verification failed")]))).

Definition handleLicenseCreated (event : WebhookEvent) : M unit :=
  invoke "handleLicenseCreated";;
  i ← field (ev_data event) "id";
  u ← field (ev_data event) "userId";
  log Info ("License created: " +:+ i +:+ " for user " +:+ u).

Definition handleLicenseUpdated (event : WebhookEvent) : M unit :=
  invoke "handleLicenseUpdated";;
  i ← field (ev_data event) "id";
  log Info ("License updated: " +:+ i).

Definition handleLicenseRevoked (event : WebhookEvent) : M unit :=
  invoke "handleLicenseRevoked";;
  i ← field (ev_data event) "id";
  log Info ("License revoked: " +:+ i).

Definition handleLicenseExpired (event : WebhookEvent) : M unit :=
  invoke "handleLicenseExpired";;
  i ← field (ev_data event) "id";
  log Info ("License expired: " +:+ i).

Definition handlePaymentCompleted (event : WebhookEvent) : M unit :=
  invoke "handlePaymentCompleted";;
  i ← field (ev_data event) "id";
  l ← field (ev_data event) "licenseId";
  log Info ("Payment completed: " +:+ i +:+ " for license " +:+ l).

Definition handlePaymentFailed (event : WebhookEvent) : M unit :=
  invoke "handlePaymentFailed";;
  i ← field (ev_data event) "id";
  l ← field (ev_data event) "licenseId";
  log Info ("Payment failed: " +:+ i +:+ " for license " +:+ l).

Definition handlePaymentRefunded (event : WebhookEvent) : M unit :=
  invoke "handlePaymentRefunded";;
  i ← field (ev_data event) "id";
  l ← field (ev_data event) "licenseId";
  log Info ("Payment refunded: " +:+ i +:+ " for license " +:+ l).

Definition handleUserCreated (event : WebhookEvent) : M unit :=
  invoke "handleUserCreated";;
  i ← field (ev_data event) "id";
  log Info ("User created: " +:+ i).

Definition handleUserUpdated (event : WebhookEvent) : M unit :=
  invoke "handleUserUpdated";;
  i ← field (ev_data event) "id";
  log Info ("User updated: " +:+ i).

Definition handleProductCreated (event : WebhookEvent) : M unit :=
  invoke "handleProductCreated";;
  i ← field (ev_data event) "id";
  s ← field (ev_data event) "sellerId";
  log Info ("Product created: " +:+ i +:+ " for seller " +:+ s).

Definition handleProductUpdated (event : WebhookEvent) : M unit :=
  invoke "handleProductUpdated";;
  i ← field (ev_data event) "id";
  log Info ("Product updated: " +:+ i).

(** The [case] labels of [processWebhookEvent], in source order. *)
Definition registered_kinds : list string :=
  [ "license.created"; "license.updated"; "license.revoked"; "license.expired";
    "payment.completed"; "payment.failed"; "payment.refunded";
    "user.created"; "user.updated"; "product.created"; "product.updated" ].

Definition processWebhookEvent (this : WebhookHandler) (event : WebhookEvent) : M unit :=
  log Info ("Processing webhook event: " +:+ ev_type event +:+ " for seller " +:+ ev_sellerId event);;
  if strict_eq (ev_type event) "license.created" then handleLicenseCreated event
  else if strict_eq (ev_type event) "license.updated" then handleLicenseUpdated event
  else if strict_eq (ev_type event) "license.revoked" then handleLicenseRevoked event
  else if strict_eq (ev_type event) "license.expired" then handleLicenseExpired event
  else if strict_eq (ev_type event) "payment.completed" then handlePaymentCompleted event
  else if strict_eq (ev_type event) "payment.failed" then handlePaymentFailed event
  else if strict_eq (ev_type event) "payment.refunded" then handlePaymentRefunded event
  else if strict_eq (ev_type event) "user.created" then handleUserCreated event
  else if strict_eq (ev_type event) "user.updated" then handleUserUpdated event
  else if strict_eq (ev_type event) "product.created" then handleProductCreated event
  else if strict_eq (ev_type event) "product.updated" then handleProductUpdated event
  else log Warn ("Unknown webhook event type: " +:+ ev_type event).

(** The module-level exports. *)

Definition createWebhookSignature (payload secret : string) : string :=
  hex_encode (SHA256.hmac (utf8 secret) (utf8 payload)).

Definition verifyWebhookSignature (payload signature secret : string) : completion bool :=
  let expectedSignature := createWebhookSignature payload secret in
  timingSafeEqual (Buffer_from_hex signature) (Buffer_from_hex expectedSignature).

Definition webhookMiddleware (secret : string) : Request -> Z -> M reply :=
  let handler := constructor (mkConfig secret None) in
  verifyWebhook handler.

Definition processWebhookEvent' (event : WebhookEvent) (secret : string) : M unit :=
  let handler := constructor (mkConfig secret None) in
  processWebhookEvent handler event.

End Utils.

(** ** src/routes/webhooks.ts *)

Module Routes.

Definition received : reply := Responded 200 (JObj [("received", JBool true)]).

Definition failed : reply := Responded 500 (JObj [("error", JStr "Webhook processing failed")]).

Definition invalid_signature : reply := Responded 400 (JObj [("error", JStr "Invalid signature")]).

(** *** The Stripe handlers *)

Definition handlePaymentSucceeded (paymentIntent : option json) : M unit :=
  invoke "handlePaymentSucceeded";;
  i ← field paymentIntent "id";
  log Info ("Payment succeeded: " +:+ i).

Definition handlePaymentFailed (paymentIntent : option json) : M unit :=
  invoke "handlePaymentFailed";;
  i ← field paymentIntent "id";
  log Info ("Payment failed: " +:+ i).

Definition handleSubscriptionCreated (subscription : option json) : M unit :=
  invoke "handleSubscriptionCreated";;
  i ← field subscription "id";
  log Info ("Subscription created: " +:+ i).

Definition handleSubscriptionUpdated (subscription : option json) : M unit :=
  invoke "handleSubscriptionUpdated";;
  i ← field subscription "id";
  log Info ("Subscription updated: " +:+ i).

Definition handleSubscriptionDeleted (subscription : option json) : M unit :=
  invoke "handleSubscriptionDeleted";;
  i ← field subscription "id";
  log Info ("Subscription deleted: " +:+ i).

Definition handleInvoicePaymentSucceeded (invoice : option json) : M unit :=
  invoke "handleInvoicePaymentSucceeded";;
  i ← field invoice "id";
  log Info ("Invoice payment succeeded: " +:+ i).

Definition handleInvoicePaymentFailed (invoice : option json) : M unit :=
  invoke "handleInvoicePaymentFailed";;
  i ← field invoice "id";
  log Info ("Invoice payment failed: " +:+ i).

(** *** The LicenseChain handlers *)

Definition handleLicenseCreated (data : option json) : M unit :=
  invoke "handleLicenseCreated";;
  i ← field data "id";
  log Info ("License created: " +:+ i).

Definition handleLicenseUpdated (data : option json) : M unit :=
  invoke "handleLicenseUpdated";;
  i ← field data "id";
  log Info ("License updated: " +:+ i).

Definition handleLicenseDeleted (data : option json) : M unit :=
  invoke "handleLicenseDeleted";;
  i ← field data "id";
  log Info ("License deleted: " +:+ i).

Definition handleUserRegistered (data : option json) : M unit :=
  invoke "handleUserRegistered";;
  i ← field data "id";
  log Info ("User registered: " +:+ i).

Definition handleUserUpdated (data : option json) : M unit :=
  invoke "handleUserUpdated";;
  i ← field data "id";
  log Info ("User updated: " +:+ i).

Definition handleApplicationCreated (data : option json) : M unit :=
  invoke "handleApplicationCreated";;
  i ← field data "id";
  log Info ("Application created: " +:+ i).

Definition handleApplicationUpdated (data : option json) : M unit :=
  invoke "handleApplicationUpdated";;
  i ← field data "id";
  log Info ("Application updated: " +:+ i).

(** The body of a Stripe request: the [Buffer] that [express.raw] leaves, or
    a value that an earlier JSON body parser left. *)
Inductive stripe_body : Type :=
| RawBody (b : Buffer)
| ParsedBody (v : json).

(** [createHmac('sha256', key)] throws when the key is [undefined]. *)
Definition hmac_key (webhookSecret : option string) : completion string :=
  match webhookSecret with
  | Some k => Return k
  | None => Throw (TypeError "The key argument must be of type string")
  end.

(** [update(payload)] takes bytes, or a string, which it encodes as UTF-8,
    and throws on any other value. *)
Definition hmac_data (payload : stripe_body) : completion Buffer :=
  match payload with
  | RawBody b => Return b
  | ParsedBody (JStr s) => Return (utf8 s)
  | ParsedBody _ => Throw (TypeError "The data argument must be of type string or Buffer")
  end.

(** [event.data.object], the argument of every Stripe handler. *)
Definition data_object (event : json) : M (option json) :=
  d ← lift (get (Some event) "data"); lift (get d "object").

(** [router.post('/stripe', ...)].  [JSON_parse] is the runtime's parser and
    [webhookSecret] is [config.stripe.webhookSecret]. *)
Definition stripe (JSON_parse : string -> completion json) (webhookSecret : option string)
    (hdrs : gmap string string) (payload : stripe_body) : M reply :=
  try_catch
    (let signature := hdrs !! "stripe-signature" in
     key ← lift (hmac_key webhookSecret);
     bytes ← lift (hmac_data payload);
     let expectedSignature := hex_encode (SHA256.hmac (utf8 key) bytes) in
     if strict_neq signature expectedSignature
     then
       log Warn "Invalid Stripe webhook signature";;
       mret invalid_signature
     else
       event ← lift (JSON_parse (string_of_list_byte bytes));
       ty ← lift (get (Some event) "type");
       shown ← lift (ToString ty);
       log Info ("Stripe webhook received: " +:+ shown);;
       (if is_str ty "payment_intent.succeeded"
        then data_object event ≫= handlePaymentSucceeded
        else if is_str ty "payment_intent.payment_failed"
        then data_object event ≫= handlePaymentFailed
        else if is_str ty "customer.subscription.created"
        then data_object event ≫= handleSubscriptionCreated
        else if is_str ty "customer.subscription.updated"
        then data_object event ≫= handleSubscriptionUpdated
        else if is_str ty "customer.subscription.deleted"
        then data_object event ≫= handleSubscriptionDeleted
        else if is_str ty "invoice.payment_succeeded"
        then data_object event ≫= handleInvoicePaymentSucceeded
        else if is_str ty "invoice.payment_failed"
        then data_object event ≫= handleInvoicePaymentFailed
        else shown ← lift (ToString ty);
             log Info ("Unhandled Stripe event type: " +:+ shown));;
       mret received)
    (fun error =>
       log Error "Error processing Stripe webhook:";;
       mret failed).

(** The [case] labels of the LicenseChain route, in source order. *)
Definition registered_kinds : list string :=
  [ "license.created"; "license.updated"; "license.deleted"; "user.registered";
    "user.updated"; "application.created"; "application.updated" ].

(** [const payload = JSON.stringify(req.body)]: the signing input. *)
Definition payload (req : Request) : string := JSON_stringify (body req).

Definition expectedSignature (secret : string) (req : Request) : string :=
  hex_encode (SHA256.hmac (utf8 secret) (utf8 (payload req))).

(** [router.post('/licensechain', ...)]; [secret] is [config.webhooks.secret]. *)
Definition licensechain (secret : string) (req : Request) : M reply :=
  try_catch
    (match validationErrors req with
     | _ :: _ =>
         mret (Responded 400 (JObj [("errors", JArr (validationErrors req))]))
     | [] =>
         event ← lift (get (Some (body req)) "event");
         data ← lift (get (Some (body req)) "data");
         timestamp ← lift (get (Some (body req)) "timestamp");
         let signature := headers req !! "x-licensechain-signature" in
         if strict_neq signature ("sha256=" +:+ expectedSignature secret req)
         then
           log Warn "Invalid LicenseChain webhook signature";;
           mret invalid_signature
         else
           shown ← lift (ToString event);
           log Info ("LicenseChain webhook received: " +:+ shown);;
           (if is_str event "license.created" then handleLicenseCreated data
            else if is_str event "license.updated" then handleLicenseUpdated data
            else if is_str event "license.deleted" then handleLicenseDeleted data
            else if is_str event "user.registered" then handleUserRegistered data
            else if is_str event "user.updated" then handleUserUpdated data
            else if is_str event "application.created" then handleApplicationCreated data
            else if is_str event "application.updated" then handleApplicationUpdated data
            else shown ← lift (ToString event);
                 log Info ("Unhandled LicenseChain event type: " +:+ shown));;
           mret received
     end)
    (fun error =>
       log Error "Error processing LicenseChain webhook:";;
       mret failed).

End Routes.

(** ** The outcomes of [verifyWebhook] *)

Definition missing_credentials : M reply :=
  mkM [Log Warn "Missing webhook signature or timestamp"]
      (Return (Utils.unauthorized "Missing webhook signature or timestamp")).

Definition stale_request : M reply :=
  mkM [Log Warn "Webhook timestamp too old"]
      (Return (Utils.unauthorized "Webhook timestamp too old")).

Definition signature_mismatch : M reply :=
  mkM [Log Warn "Invalid webhook signature"]
      (Return (Utils.unauthorized "Invalid webhook signature")).

Definition verification_failed : M reply :=
  mkM [Log Error "Error verifying webhook:"]
      (Return (Responded 500 (JObj [("success", JBool false);
                                    ("error", JStr "Webhook verification failed")]))).

Definition accepted : M reply :=
  mkM [Log Info "Webhook signature verified successfully"] (Return NextCalled).

(** The tolerance test of [verifyWebhook]. *)
Definition too_old (this : Utils.WebhookHandler) (now : Z) (timestamp : string) : bool :=
  num_gt (Math_abs (num_sub (Num (now / 1000)) (parseInt timestamp)))
         (ToNumber (read_property (Utils.tolerance (Utils.config this)))).

(** ** Requests used as examples

    The scenario of the specification: secret ["s3cr3t"], the body
    [{"event":"license.created","data":{"id":"lic_1"},
      "timestamp":"2024-01-01T00:00:00Z","sellerId":"seller_1"}]
    and its HMAC-SHA256 in hexadecimal. *)

Definition scenario_secret : string := "s3cr3t".

Definition scenario_body : json :=
  JObj [("event", JStr "license.created");
        ("data", JObj [("id", JStr "lic_1")]);
        ("timestamp", JStr "2024-01-01T00:00:00Z");
        ("sellerId", JStr "seller_1")].

Definition scenario_signature : string :=
  "590244a968979322071d4fc2c577c2a5ba91800ebf528e8e70c8d88cf51fc634".

(** [Date.now()] at 1700000100 seconds after the epoch. *)
Definition scenario_now : Z := 1700000100000.

Definition scenario_handler : Utils.WebhookHandler :=
  Utils.constructor (Utils.mkConfig scenario_secret None).

(** A request carrying both LicenseChain headers. *)
Definition signed_request (signature timestamp : string) (b : json) : Request :=
  mkRequest (<["x-licensechain-signature" := signature]>
               (<["x-licensechain-timestamp" := timestamp]> ∅)) b [].

(** The timestamp header of [req] parses to a time within [tol] seconds of
    [now] (in milliseconds). *)
Definition within_window (tol : Z) (req : Request) (now : Z) : Prop :=
  exists ts T, headers req !! "x-licensechain-timestamp" = Some ts
               /\ parseInt ts = Num T
               /\ Z.abs (now / 1000 - T) <= tol.

(** The scenario sent to the LicenseChain route, with the signature in
    the route's format and a timestamp header 600 seconds before
    [scenario_now]. *)
Definition stale_route_request : Request :=
  signed_request ("sha256=" +:+ scenario_signature) "1699999500" scenario_body.

(** An event of a kind that no handler is registered for. *)
Definition unknown_event : Utils.WebhookEvent :=
  Utils.mkEvent "evt_1" "subscription.renewed" (Some (JObj [("id", JStr "sub_1")]))
                "2024-01-01T00:00:00Z" "seller_1".

Definition unknown_props : list (string * json) :=
  [("event", JStr "subscription.renewed");
   ("data", JObj [("id", JStr "sub_1")]);
   ("timestamp", JStr "2024-01-01T00:00:00Z")].

Definition unknown_route_request : Request :=
  signed_request
    ("sha256=" +:+ hex_encode (SHA256.hmac (utf8 scenario_secret)
                                 (utf8 (JSON_stringify (JObj unknown_props)))))
    "1700000000" (JObj unknown_props).

(** The scenario sent to the LicenseChain route with the bare digest that
    [createSignature] produces. *)
Definition bare_digest_request : Request :=
  signed_request (Utils.createSignature (JSON_stringify scenario_body) scenario_secret)
                 "1700000000" scenario_body.

(** The scenario's body as a sender may write it, with a space after each
    punctuation mark:
    [{ "event": "license.created", "data": { "id": "lic_1" },
       "timestamp": "2024-01-01T00:00:00Z", "sellerId": "seller_1" }].
    [JSON.parse] maps it to [scenario_body]. *)
Definition spaced_body : string :=
  "{ " +:+ quote "event" +:+ ": " +:+ quote "license.created" +:+ ", "
  +:+ quote "data" +:+ ": { " +:+ quote "id" +:+ ": " +:+ quote "lic_1" +:+ " }, "
  +:+ quote "timestamp" +:+ ": " +:+ quote "2024-01-01T00:00:00Z" +:+ ", "
  +:+ quote "sellerId" +:+ ": " +:+ quote "seller_1" +:+ " }".

(** The signature a sender computes over the bytes it sends. *)
Definition spaced_signature : string :=
  hex_encode (SHA256.hmac (utf8 scenario_secret) (utf8 spaced_body)).

(** Two wrong signature headers of the right length for the scenario: the
    first differs from the expected header in its first character, the
    second in its last character only. *)
Definition wrong_at_first : string :=
  "Xha256=590244a968979322071d4fc2c577c2a5ba91800ebf528e8e70c8d88cf51fc634".

Definition wrong_at_last : string :=
  "sha256=590244a968979322071d4fc2c577c2a5ba91800ebf528e8e70c8d88cf51fc635".

(** ** Further runtime functions and predicates used in the properties *)

(** [c.toUpperCase()] on one ASCII character. *)
Definition ascii_toUpperCase (c : ascii) : ascii :=
  let n := Z.of_N (N_of_ascii c) in
  if (97 <=? n) && (n <=? 122) then ascii_of_N (Z.to_N (n - 32)) else c.

(** [s.toUpperCase()] on ASCII text. *)
Fixpoint toUpperCase (s : string) : string :=
  match s with
  | EmptyString => EmptyString
  | String c rest => String (ascii_toUpperCase c) (toUpperCase rest)
  end.

(** The characters [0-9a-f]. *)
Definition is_lower_hex (c : ascii) : bool :=
  let n := Z.of_N (N_of_ascii c) in
  ((48 <=? n) && (n <=? 57)) || ((97 <=? n) && (n <=? 102)).

Fixpoint string_forallb (f : ascii -> bool) (s : string) : bool :=
  match s with
  | EmptyString => true
  | String c rest => f c && string_forallb f rest
  end.

(** Text that may follow a decimal numeral without changing what [parseInt]
    reads: nothing, or text that starts with neither a digit nor [x]. *)
Definition ends_the_number (t : string) : Prop :=
  match t with
  | EmptyString => True
  | String c _ => digit_value 10 c = None /\ c <> "x"%char /\ c <> "X"%char
  end.

(** The handlers entered, in order. *)
Definition invoked {A} (m : M A) : list string :=
  flat_map (fun e => match e with Invoke h => [h] | Log _ _ => [] end) (effects m).

(** A value whose properties can be read: anything but [undefined] and
    [null]. *)
Definition readable (v : option json) : bool :=
  match v with
  | None | Some JNull => false
  | Some _ => true
  end.

(** A value that a template literal can convert to a string. *)
Definition prints (v : option json) : bool :=
  match ToString v with
  | Return _ => true
  | Throw _ => false
  end.

(** A value whose properties can be read and converted to strings: a
    primitive other than [null], an array, or an object all of whose
    property values convert. *)
Definition fields_print (v : option json) : bool :=
  match v with
  | None | Some JNull => false
  | Some (JObj props) => forallb (fun kv => prints (Some (snd kv))) props
  | Some _ => true
  end.

(** The [switch] of [WebhookHandler.processWebhookEvent]: each [case] label
    with the method it calls. *)
Definition utils_dispatch : list (string * string) :=
  [ ("license.created", "handleLicenseCreated");
    ("license.updated", "handleLicenseUpdated");
    ("license.revoked", "handleLicenseRevoked");
    ("license.expired", "handleLicenseExpired");
    ("payment.completed", "handlePaymentCompleted");
    ("payment.failed", "handlePaymentFailed");
    ("payment.refunded", "handlePaymentRefunded");
    ("user.created", "handleUserCreated");
    ("user.updated", "handleUserUpdated");
    ("product.created", "handleProductCreated");
    ("product.updated", "handleProductUpdated") ].

(** The [switch] of the LicenseChain route. *)
Definition licensechain_dispatch : list (string * string) :=
  [ ("license.created", "handleLicenseCreated");
    ("license.updated", "handleLicenseUpdated");
    ("license.deleted", "handleLicenseDeleted");
    ("user.registered", "handleUserRegistered");
    ("user.updated", "handleUserUpdated");
    ("application.created", "handleApplicationCreated");
    ("application.updated", "handleApplicationUpdated") ].

(** The [switch] of the Stripe route. *)
Definition stripe_dispatch : list (string * string) :=
  [ ("payment_intent.succeeded", "handlePaymentSucceeded");
    ("payment_intent.payment_failed", "handlePaymentFailed");
    ("customer.subscription.created", "handleSubscriptionCreated");
    ("customer.subscription.updated", "handleSubscriptionUpdated");
    ("customer.subscription.deleted", "handleSubscriptionDeleted");
    ("invoice.payment_succeeded", "handleInvoicePaymentSucceeded");
    ("invoice.payment_failed", "handleInvoicePaymentFailed") ].

(** The answer of both routes to an exception. *)
Definition route_failed (what : string) : M reply :=
  mkM [Log Error what] (Return Routes.failed).

(** A Stripe event as [JSON.parse] returns it, its text, and a parser that
    returns that event. *)
Definition stripe_event : json :=
  JObj [("type", JStr "invoice.payment_failed");
        ("data", JObj [("object", JObj [("id", JStr "in_1")])])].

Definition stripe_raw : Buffer := utf8 (JSON_stringify stripe_event).

Definition stripe_parse (text : string) : completion json := Return stripe_event.

(** * Properties *)

(** ** The runtime: test vectors *)

Example round_constants :
  (List.length SHA256.K, nth 0 SHA256.K 0, nth 63 SHA256.K 0, SHA256.ha SHA256.H0,
   SHA256.hh SHA256.H0)
  = (64%nat, 0x428a2f98, 0xc67178f2, 0x6a09e667, 0x5be0cd19).
Proof. reflexivity. Qed.

Example sha256_empty : hex_encode (SHA256.sha256 (utf8 "")) =
  "e3b0c44298fc1c149afbf4c8996fb92427ae41e4649b934ca495991b7852b855"%string.
Proof. vm_compute. reflexivity. Qed.

Example sha256_abc : hex_encode (SHA256.sha256 (utf8 "abc")) =
  "ba7816bf8f01cfea414140de5dae2223b00361a396177a9cb410ff61f20015ad"%string.
Proof. vm_compute. reflexivity. Qed.

Example sha256_two_blocks : hex_encode (SHA256.sha256 (repeat "a"%byte 70)) =
  "6bd5e5034855a11241f0dee8fc72850ffd9955b28347a86428b5fa19119f6ad0"%string.
Proof. vm_compute. reflexivity. Qed.

Example hmac_short_key :
  hex_encode (SHA256.hmac (utf8 "key") (utf8 "The quick brown fox jumps over the lazy dog")) =
  "f7bc83f430538424b13298e6aa6fb143ef4d59a14946175997479dbc2d1a3cd8"%string.
Proof. vm_compute. reflexivity. Qed.

Example hmac_long_key : hex_encode (SHA256.hmac (repeat "k"%byte 70) (utf8 "msg")) =
  "869b65e96f6aff0cfcb55ed40163b7d46e124a4213fa2232d61cca5e4a21256e"%string.
Proof. vm_compute. reflexivity. Qed.

Example parseInt_samples :
  (parseInt "1700000000", parseInt " 0x1F", parseInt "-12abc", parseInt "abc", parseInt "")
  = (Num 1700000000, Num 31, Num (-12), NaN, NaN).
Proof. reflexivity. Qed.

Example Buffer_from_hex_samples :
  (Buffer_from_hex "abzz12", Buffer_from_hex "ABc", Buffer_from_hex "zz")
  = ([xab], [xab], []).
Proof. reflexivity. Qed.

(** ** Hexadecimal round trip *)

Lemma hex_pair_decodes (x : byte) (rest : string) :
  Buffer_from_hex (String (hex_digit (Z_of_byte x / 16))
                     (String (hex_digit (Z_of_byte x mod 16)) rest))
  = x :: Buffer_from_hex rest.
Proof.
  assert (H : unhex (hex_digit (Z_of_byte x / 16)) = Some (Z_of_byte x / 16)
              /\ unhex (hex_digit (Z_of_byte x mod 16)) = Some (Z_of_byte x mod 16)
              /\ byte_of_Z (16 * (Z_of_byte x / 16) + Z_of_byte x mod 16) = x)
    by (destruct x; vm_compute; auto).
  destruct H as (Hhi & Hlo & Hb).
  cbn [Buffer_from_hex]. rewrite Hhi, Hlo, Hb. reflexivity.
Qed.

Lemma hex_roundtrip (b : Buffer) : Buffer_from_hex (hex_encode b) = b.
Proof.
  induction b as [|x b IH]; [reflexivity|].
  cbn [hex_encode]. rewrite hex_pair_decodes, IH. reflexivity.
Qed.

Lemma hex_encode_length (b : Buffer) :
  String.length (hex_encode b) = (2 * List.length b)%nat.
Proof.
  induction b as [|x b IH]; [reflexivity|].
  cbn [hex_encode String.length List.length]. rewrite IH. lia.
Qed.

(** ** The comparators *)

Lemma memcmp_scan_count (a b : Buffer) (acc : bool) (n : nat) :
  List.length a = List.length b ->
  snd (memcmp_scan a b acc n) = (n + List.length a)%nat.
Proof.
  revert b acc n. induction a as [|x a IH]; intros [|y b] acc n Hlen;
    cbn in Hlen |- *; try discriminate; [lia|].
  rewrite IH by congruence. lia.
Qed.

Lemma memcmp_scan_spec (a b : Buffer) (acc : bool) (n : nat) :
  List.length a = List.length b ->
  fst (memcmp_scan a b acc n) = true <-> acc = true /\ a = b.
Proof.
  revert b acc n. induction a as [|x a IH]; intros [|y b] acc n Hlen;
    cbn in Hlen |- *; try discriminate.
  - intuition.
  - rewrite IH by congruence. rewrite andb_true_iff. split.
    + intros [[Hacc Hxy] Hab]. apply Byte.byte_dec_bl in Hxy. subst. auto.
    + intros [Hacc Heq]. injection Heq as -> ->.
      split; [split; [assumption|apply Byte.byte_dec_lb; reflexivity]|reflexivity].
Qed.

Lemma timingSafeEqual_same_length (a b : Buffer) :
  List.length a = List.length b ->
  timingSafeEqual a b = Return (fst (memcmp_scan a b true O)).
Proof.
  intros Hlen. unfold timingSafeEqual, timingSafeEqual_scan.
  rewrite Hlen, Nat.eqb_refl. reflexivity.
Qed.

Lemma timingSafeEqual_refl (a : Buffer) : timingSafeEqual a a = Return true.
Proof.
  rewrite timingSafeEqual_same_length by reflexivity. f_equal.
  apply memcmp_scan_spec; auto.
Qed.

Lemma timingSafeEqual_length_mismatch (a b : Buffer) :
  List.length a <> List.length b ->
  timingSafeEqual a b = Throw (RangeError "Input buffers must have the same byte length").
Proof.
  intros Hlen. unfold timingSafeEqual, timingSafeEqual_scan.
  destruct (Nat.eqb_spec (List.length a) (List.length b)); [contradiction|reflexivity].
Qed.

Lemma timingSafeEqual_true (a b : Buffer) :
  timingSafeEqual a b = Return true -> a = b.
Proof.
  unfold timingSafeEqual, timingSafeEqual_scan.
  destruct (Nat.eqb_spec (List.length a) (List.length b)) as [Hlen|Hlen]; cbn; [|discriminate].
  intros [= H]. apply (memcmp_scan_spec a b true O Hlen) in H. tauto.
Qed.

Lemma early_exit_scan_spec (s t : string) (n : nat) :
  String.length s = String.length t ->
  fst (early_exit_scan s t n) = true <-> s = t.
Proof.
  revert t n. induction s as [|c s IH]; intros [|d t] n Hlen;
    cbn in Hlen |- *; try discriminate.
  - tauto.
  - destruct (Ascii.eqb_spec c d) as [->|Hcd].
    + rewrite IH by congruence. split; [intros ->; reflexivity|intros [= ->]; reflexivity].
    + cbn. split; [discriminate|intros [= ? ?]; contradiction].
Qed.

Lemma strict_eq_spec (s t : string) : strict_eq s t = true <-> s = t.
Proof.
  unfold strict_eq, strict_eq_scan.
  destruct (Nat.eqb_spec (String.length s) (String.length t)) as [Hlen|Hlen].
  - apply early_exit_scan_spec, Hlen.
  - cbn. split; [discriminate|intros ->; contradiction].
Qed.

Lemma strict_eq_refl (s : string) : strict_eq s s = true.
Proof. apply strict_eq_spec. reflexivity. Qed.

Lemma strict_eq_false (s t : string) : s <> t -> strict_eq s t = false.
Proof.
  intros Hne. destruct (strict_eq s t) eqn:E; [|reflexivity].
  apply strict_eq_spec in E. contradiction.
Qed.

(** ** The digest has 32 bytes *)

Lemma sha256_length (m : Buffer) : List.length (SHA256.sha256 m) = 32%nat.
Proof. reflexivity. Qed.

Lemma hmac_length (key msg : Buffer) : List.length (SHA256.hmac key msg) = 32%nat.
Proof. reflexivity. Qed.

(** ** Sequencing in [M] *)

Lemma bind_unfold {A B} (m : M A) (k : A -> M B) :
  m ≫= k = match outcome m with
           | Return a => mkM (effects m ++ effects (k a)) (outcome (k a))
           | Throw e => mkM (effects m) (Throw e)
           end.
Proof. reflexivity. Qed.

Lemma bind_lift_return {A B} (a : A) (k : A -> M B) : lift (Return a) ≫= k = k a.
Proof. rewrite bind_unfold. cbn. destruct (k a); reflexivity. Qed.

Lemma truthy_nonempty (s : string) : s <> EmptyString -> truthy (Some s) = Some s.
Proof. destruct s; [contradiction|reflexivity]. Qed.

Lemma createSignature_length (p s : string) :
  String.length (Utils.createSignature p s) = 64%nat.
Proof.
  unfold Utils.createSignature. rewrite hex_encode_length, hmac_length. reflexivity.
Qed.

Lemma createSignature_nonempty (p s : string) : Utils.createSignature p s <> EmptyString.
Proof.
  intros H. pose proof (createSignature_length p s) as L. rewrite H in L. discriminate.
Qed.

Lemma parseInt_nonempty (ts : string) (T : Z) : parseInt ts = Num T -> ts <> EmptyString.
Proof. intros H ->. discriminate. Qed.

(** ** Claims *)

(** C2: for every payload and secret, verifying the signature that
    [createSignature] produced for them returns [true]; the same holds for
    the module-level pair [createWebhookSignature] / [verifyWebhookSignature]. *)
Theorem C2_verify_accepts_created_signature (P S : string) :
  Utils.verifySignature P (Utils.createSignature P S) S = Return true
  /\ Utils.verifyWebhookSignature P (Utils.createWebhookSignature P S) S = Return true.
Proof.
  split.
  - unfold Utils.verifySignature. apply timingSafeEqual_refl.
  - unfold Utils.verifyWebhookSignature. apply timingSafeEqual_refl.
Qed.

(** [verifySignature] returns exactly when the candidate decodes to 32
    bytes, and throws otherwise. *)
Lemma verifySignature_throws_iff (P sig S : string) :
  List.length (Buffer_from_hex sig) <> 32%nat <->
  Utils.verifySignature P sig S
  = Throw (RangeError "Input buffers must have the same byte length").
Proof.
  unfold Utils.verifySignature, Utils.createSignature. rewrite hex_roundtrip. split.
  - intros Hlen. apply timingSafeEqual_length_mismatch. rewrite hmac_length. exact Hlen.
  - intros Hthrow Hlen.
    rewrite timingSafeEqual_same_length in Hthrow by (rewrite hmac_length; exact Hlen).
    discriminate.
Qed.

(** ** [verifyWebhook], case by case *)

Lemma verifyWebhook_missing (this : Utils.WebhookHandler) (req : Request) (now : Z) :
  truthy (headers req !! "x-licensechain-signature") = None
  \/ truthy (headers req !! "x-licensechain-timestamp") = None ->
  Utils.verifyWebhook this req now = missing_credentials.
Proof.
  intros H. unfold Utils.verifyWebhook.
  destruct (truthy (headers req !! "x-licensechain-signature")) as [sig|];
    destruct (truthy (headers req !! "x-licensechain-timestamp")) as [ts|];
    try reflexivity.
  destruct H; discriminate.
Qed.

Lemma verifyWebhook_present (this : Utils.WebhookHandler) (req : Request) (now : Z)
    (sig ts : string) :
  truthy (headers req !! "x-licensechain-signature") = Some sig ->
  truthy (headers req !! "x-licensechain-timestamp") = Some ts ->
  Utils.verifyWebhook this req now =
    if too_old this now ts then stale_request
    else match timingSafeEqual (Buffer_from_hex sig)
                 (SHA256.hmac (utf8 (Utils.secret (Utils.config this)))
                              (utf8 (Utils.payload req))) with
         | Return true => accepted
         | Return false => signature_mismatch
         | Throw _ => verification_failed
         end.
Proof.
  intros Hsig Hts. unfold Utils.verifyWebhook, too_old. rewrite Hsig, Hts.
  destruct (num_gt _ _); [reflexivity|].
  unfold Utils.createSignature. rewrite hex_roundtrip.
  destruct (timingSafeEqual _ _) as [[|]|e]; reflexivity.
Qed.

(** C7: a request that lacks the signature header or the timestamp header
    is answered 401 "Missing webhook signature or timestamp", whatever the
    rest of the request, the clock and the configuration are: nothing is
    parsed, compared or hashed before this check. *)
Theorem C7_missing_credentials (this : Utils.WebhookHandler) (req : Request) (now : Z) :
  headers req !! "x-licensechain-signature" = None
  \/ headers req !! "x-licensechain-timestamp" = None ->
  Utils.verifyWebhook this req now = missing_credentials.
Proof.
  intros [H|H]; apply verifyWebhook_missing; rewrite H; auto.
Qed.

(** C7 at a request with a stale timestamp and no signature header. *)
Lemma C7_witness :
  Utils.verifyWebhook (Utils.constructor (Utils.mkConfig "s3cr3t" None))
    (mkRequest (<["x-licensechain-timestamp" := "1"]> ∅) (JObj []) []) 1700000000000
  = missing_credentials.
Proof.
  apply (C7_missing_credentials
           (Utils.constructor (Utils.mkConfig "s3cr3t" None))
           (mkRequest (<["x-licensechain-timestamp" := "1"]> ∅) (JObj []) [])
           1700000000000).
  left. vm_compute. reflexivity.
Defined.

(** X20: the window of [verifyWebhook]: with both headers present, a timestamp
    header that parses to [T] seconds and a numeric tolerance, a request
    signed with [createSignature] over the payload is accepted when
    [|now - T| <= tolerance], and every request with [|now - T| > tolerance]
    is answered 401 "Webhook timestamp too old", whatever its signature
    header holds.  The constructor sets the tolerance to 300 when the
    property is absent and keeps a property that is present, be it a number
    or [undefined]. *)
Theorem X20_verifyWebhook_window (this : Utils.WebhookHandler) (req : Request) (now : Z)
    (sig ts : string) (T tol : Z) :
  headers req !! "x-licensechain-signature" = Some sig ->
  sig <> EmptyString ->
  headers req !! "x-licensechain-timestamp" = Some ts ->
  parseInt ts = Num T ->
  Utils.tolerance (Utils.config this) = Some (Some tol) ->
  (Z.abs (now / 1000 - T) <= tol ->
   sig = Utils.createSignature (Utils.payload req) (Utils.secret (Utils.config this)) ->
   Utils.verifyWebhook this req now = accepted)
  /\ (Z.abs (now / 1000 - T) > tol -> Utils.verifyWebhook this req now = stale_request)
  /\ (forall s, Utils.tolerance (Utils.config (Utils.constructor (Utils.mkConfig s None)))
                = Some (Some 300))
  /\ (forall s t, Utils.tolerance (Utils.config (Utils.constructor (Utils.mkConfig s (Some t))))
                  = Some t).
Proof.
  intros Hsig Hne Hts HT Htol.
  assert (Hstep := verifyWebhook_present this req now sig ts).
  rewrite Hsig, Hts in Hstep.
  rewrite (truthy_nonempty sig Hne), (truthy_nonempty ts (parseInt_nonempty ts T HT)) in Hstep.
  specialize (Hstep eq_refl eq_refl).
  unfold too_old in Hstep. rewrite HT, Htol in Hstep.
  cbn [num_sub Math_abs ToNumber num_gt read_property] in Hstep.
  split; [|split; [|split]].
  - intros Hfresh ->. rewrite Hstep.
    destruct (Z.ltb_spec tol (Z.abs (now / 1000 - T))); [lia|].
    unfold Utils.createSignature. rewrite hex_roundtrip, timingSafeEqual_refl. reflexivity.
  - intros Hstale. rewrite Hstep.
    destruct (Z.ltb_spec tol (Z.abs (now / 1000 - T))); [reflexivity|lia].
  - reflexivity.
  - reflexivity.
Qed.

(** X20 on the scenario: accepted 100 seconds after the timestamp, rejected
    as too old 600 seconds after it. *)
Lemma X20_witness :
  Utils.verifyWebhook scenario_handler
    (signed_request scenario_signature "1700000000" scenario_body) scenario_now = accepted
  /\ Utils.verifyWebhook scenario_handler
       (signed_request scenario_signature "1700000000" scenario_body) 1700000600000
     = stale_request.
Proof.
  split.
  - apply (X20_verifyWebhook_window scenario_handler
             (signed_request scenario_signature "1700000000" scenario_body) scenario_now
             scenario_signature "1700000000" 1700000000 300);
      try (vm_compute; reflexivity); try discriminate.
  - apply (X20_verifyWebhook_window scenario_handler
             (signed_request scenario_signature "1700000000" scenario_body) 1700000600000
             scenario_signature "1700000000" 1700000000 300);
      try (vm_compute; reflexivity); try discriminate.
Defined.

Lemma signed_request_signature (sig ts : string) (b : json) :
  headers (signed_request sig ts b) !! "x-licensechain-signature" = Some sig.
Proof. unfold signed_request. cbn [headers]. apply lookup_insert_eq. Qed.

Lemma signed_request_timestamp (sig ts : string) (b : json) :
  headers (signed_request sig ts b) !! "x-licensechain-timestamp" = Some ts.
Proof.
  unfold signed_request. cbn [headers].
  rewrite lookup_insert_ne by discriminate. apply lookup_insert_eq.
Qed.

(** C4 (the code departs from it): the scenario sent with a space after
    each punctuation mark and signed by the sender over the bytes sent is
    correctly signed and its timestamp is 100 seconds old, inside the 300
    second window, yet [verifyWebhook] answers 401 "Invalid webhook
    signature", because it hashes [JSON.stringify(req.body)].  And a handler
    built with [tolerance: undefined] has no window at all: the spread in
    the constructor keeps the [undefined], the comparison with it is false,
    and the signed scenario is accepted whatever the clock says. *)
Theorem C4_fresh_signed_request_is_rejected :
  within_window 300 (signed_request spaced_signature "1700000000" scenario_body) scenario_now
  /\ Utils.verifySignature spaced_body spaced_signature scenario_secret = Return true
  /\ Utils.verifyWebhook scenario_handler
       (signed_request spaced_signature "1700000000" scenario_body) scenario_now
     = signature_mismatch
  /\ Utils.tolerance (Utils.config (Utils.constructor (Utils.mkConfig scenario_secret (Some None))))
     = Some None
  /\ (forall now,
        Utils.verifyWebhook (Utils.constructor (Utils.mkConfig scenario_secret (Some None)))
          (signed_request scenario_signature "1700000000" scenario_body) now
        = accepted).
Proof.
  split; [|split; [|split; [|split]]].
  - exists "1700000000"%string, 1700000000.
    split; [apply signed_request_timestamp|]. split; [reflexivity|]. vm_compute. discriminate.
  - unfold spaced_signature, Utils.verifySignature, Utils.createSignature.
    apply timingSafeEqual_refl.
  - vm_compute. reflexivity.
  - reflexivity.
  - intros now.
    rewrite (verifyWebhook_present _ _ _ scenario_signature "1700000000").
    + change (too_old _ now "1700000000") with false. cbv iota.
      assert (E : timingSafeEqual (Buffer_from_hex scenario_signature)
                    (SHA256.hmac
                       (utf8 (Utils.secret (Utils.config
                          (Utils.constructor (Utils.mkConfig scenario_secret (Some None))))))
                       (utf8 (Utils.payload
                          (signed_request scenario_signature "1700000000" scenario_body))))
                  = Return true) by (vm_compute; reflexivity).
      rewrite E. reflexivity.
    + rewrite signed_request_signature. reflexivity.
    + rewrite signed_request_timestamp. reflexivity.
Qed.

(** C3 (the code departs from it): for every payload and secret,
    [verifySignature] and [verifyWebhookSignature] throw a [RangeError],
    instead of returning [false], on a candidate that is not hexadecimal
    (["zz"]), on a hexadecimal one of fewer than 32 bytes (["abcd"]) and on
    one of more than 32 bytes (66 digits); inside [verifyWebhook] the same
    throw is caught and answered 500, not 401. *)
Theorem C3_verifySignature_throws (P S : string) (b : json) :
  let thrown := Throw (RangeError "Input buffers must have the same byte length") in
  Utils.verifySignature P "zz" S = thrown
  /\ Utils.verifySignature P "abcd" S = thrown
  /\ Utils.verifySignature P
       "000000000000000000000000000000000000000000000000000000000000000000" S = thrown
  /\ Utils.verifyWebhookSignature P "zz" S = thrown
  /\ Utils.verifyWebhook (Utils.constructor (Utils.mkConfig S None))
       (signed_request "zz" "1700000000" b) scenario_now
     = verification_failed.
Proof.
  cbv zeta. split; [|split; [|split; [|split]]].
  - apply verifySignature_throws_iff. vm_compute. lia.
  - apply verifySignature_throws_iff. vm_compute. lia.
  - apply verifySignature_throws_iff. vm_compute. lia.
  - unfold Utils.verifyWebhookSignature, Utils.createWebhookSignature.
    rewrite hex_roundtrip. apply timingSafeEqual_length_mismatch.
    rewrite hmac_length. vm_compute. lia.
  - rewrite (verifyWebhook_present _ _ _ "zz" "1700000000").
    + change (too_old _ _ _) with false. cbv iota.
      rewrite timingSafeEqual_length_mismatch; [reflexivity|].
      rewrite hmac_length. vm_compute. lia.
    + rewrite signed_request_signature. reflexivity.
    + rewrite signed_request_timestamp. reflexivity.
Qed.

Lemma too_old_NaN (this : Utils.WebhookHandler) (now : Z) (ts : string) :
  parseInt ts = NaN -> too_old this now ts = false.
Proof. unfold too_old. intros ->. reflexivity. Qed.

(** A timestamp that does not parse is never rejected as too old: the
    request goes on to the signature comparison. *)
Lemma verifyWebhook_NaN_timestamp (this : Utils.WebhookHandler) (req : Request) (now : Z)
    (sig ts : string) :
  truthy (headers req !! "x-licensechain-signature") = Some sig ->
  truthy (headers req !! "x-licensechain-timestamp") = Some ts ->
  parseInt ts = NaN ->
  Utils.verifyWebhook this req now =
    match timingSafeEqual (Buffer_from_hex sig)
            (SHA256.hmac (utf8 (Utils.secret (Utils.config this)))
                         (utf8 (Utils.payload req))) with
    | Return true => accepted
    | Return false => signature_mismatch
    | Throw _ => verification_failed
    end.
Proof.
  intros Hsig Hts Hnan.
  rewrite (verifyWebhook_present this req now sig ts Hsig Hts).
  rewrite too_old_NaN by exact Hnan. reflexivity.
Qed.

(** C5 (the code departs from it): a timestamp header that is not a number
    is not rejected.  [parseInt] gives [NaN], the comparison with the
    tolerance is false, and a request signed over its payload is accepted
    ([next()] is called) whatever the secret, the body and the clock are. *)
Theorem C5_unparsable_timestamp_accepted (secret : string) (b : json) (now : Z) :
  parseInt "not-a-number" = NaN
  /\ Utils.verifyWebhook (Utils.constructor (Utils.mkConfig secret None))
       (signed_request (Utils.createSignature (JSON_stringify b) secret) "not-a-number" b) now
     = accepted.
Proof.
  split; [reflexivity|].
  rewrite (verifyWebhook_present _ _ _
             (Utils.createSignature (JSON_stringify b) secret) "not-a-number").
  - unfold Utils.createSignature at 1. rewrite hex_roundtrip.
    cbn [too_old Utils.constructor Utils.config Utils.secret Utils.tolerance
         Utils.payload body signed_request].
    rewrite timingSafeEqual_refl. reflexivity.
  - rewrite signed_request_signature. apply truthy_nonempty, createSignature_nonempty.
  - rewrite signed_request_timestamp. reflexivity.
Qed.

(** ** Dispatch only after verification *)

Lemma licensechain_dispatch_needs_signature (secret : string) (req : Request) :
  handler_invoked (Routes.licensechain secret req) ->
  validationErrors req = []
  /\ headers req !! "x-licensechain-signature"
     = Some ("sha256=" +:+ Routes.expectedSignature secret req).
Proof.
  unfold handler_invoked, Routes.licensechain. intros [h Hin].
  destruct (validationErrors req) as [|e es].
  2:{ cbn in Hin. destruct Hin. }
  split; [reflexivity|].
  destruct (get (Some (body req)) "event") as [event|e1].
  2:{ cbn in Hin. destruct Hin as [Hin|[]]; discriminate. }
  rewrite bind_lift_return in Hin.
  destruct (get (Some (body req)) "data") as [data|e2].
  2:{ cbn in Hin. destruct Hin as [Hin|[]]; discriminate. }
  rewrite bind_lift_return in Hin.
  destruct (get (Some (body req)) "timestamp") as [timestamp|e3].
  2:{ cbn in Hin. destruct Hin as [Hin|[]]; discriminate. }
  rewrite bind_lift_return in Hin.
  destruct (headers req !! "x-licensechain-signature") as [sig|].
  2:{ cbn in Hin. destruct Hin as [Hin|[]]; discriminate. }
  cbn [strict_neq] in Hin.
  destruct (strict_eq sig ("sha256=" +:+ Routes.expectedSignature secret req)) eqn:E.
  - apply strict_eq_spec in E. congruence.
  - cbn in Hin. destruct Hin as [Hin|[]]; discriminate.
Qed.

Lemma truthy_Some (x : option string) (s : string) :
  truthy x = Some s -> x = Some s /\ s <> EmptyString.
Proof.
  destruct x as [[|c r]|]; cbn; intros [= <-]; split; try reflexivity; discriminate.
Qed.

Lemma too_old_false (this : Utils.WebhookHandler) (now : Z) (ts : string) :
  too_old this now ts = false ->
  forall T tol, parseInt ts = Num T ->
                Utils.tolerance (Utils.config this) = Some (Some tol) ->
                Z.abs (now / 1000 - T) <= tol.
Proof.
  unfold too_old. intros H T tol HT Htol. rewrite HT, Htol in H. cbn in H.
  apply Z.ltb_ge in H. exact H.
Qed.

Lemma verifyWebhook_invokes_no_handler (this : Utils.WebhookHandler) (req : Request) (now : Z) :
  ~ handler_invoked (Utils.verifyWebhook this req now).
Proof.
  intros [h Hin].
  destruct (truthy (headers req !! "x-licensechain-signature")) as [sig|] eqn:Hsig;
    [destruct (truthy (headers req !! "x-licensechain-timestamp")) as [ts|] eqn:Hts|].
  - rewrite (verifyWebhook_present this req now sig ts Hsig Hts) in Hin.
    destruct (too_old this now ts); [|destruct (timingSafeEqual _ _) as [[|]|e]];
      cbn in Hin; destruct Hin as [Hin|[]]; discriminate.
  - rewrite verifyWebhook_missing in Hin by auto.
    cbn in Hin. destruct Hin as [Hin|[]]; discriminate.
  - rewrite verifyWebhook_missing in Hin by auto.
    cbn in Hin. destruct Hin as [Hin|[]]; discriminate.
Qed.

Lemma verifyWebhook_next_needs_checks (this : Utils.WebhookHandler) (req : Request) (now : Z) :
  outcome (Utils.verifyWebhook this req now) = Return NextCalled ->
  exists sig ts,
    headers req !! "x-licensechain-signature" = Some sig /\ sig <> EmptyString
    /\ headers req !! "x-licensechain-timestamp" = Some ts /\ ts <> EmptyString
    /\ too_old this now ts = false
    /\ Buffer_from_hex sig
       = SHA256.hmac (utf8 (Utils.secret (Utils.config this))) (utf8 (Utils.payload req)).
Proof.
  intros Hnext.
  destruct (truthy (headers req !! "x-licensechain-signature")) as [sig|] eqn:Hsig;
    [destruct (truthy (headers req !! "x-licensechain-timestamp")) as [ts|] eqn:Hts|].
  - rewrite (verifyWebhook_present this req now sig ts Hsig Hts) in Hnext.
    apply truthy_Some in Hsig as [Hsig Hsne]. apply truthy_Some in Hts as [Hts Htne].
    exists sig, ts.
    destruct (too_old this now ts); [discriminate|].
    destruct (timingSafeEqual _ _) as [[|]|e] eqn:Hcmp; try discriminate.
    apply timingSafeEqual_true in Hcmp. auto 10.
  - rewrite verifyWebhook_missing in Hnext by auto. discriminate.
  - rewrite verifyWebhook_missing in Hnext by auto. discriminate.
Qed.

Lemma licensechain_ignores_timestamp (secret : string) (req : Request) (ts : string) :
  Routes.licensechain secret
    (mkRequest (<["x-licensechain-timestamp" := ts]> (headers req)) (body req)
               (validationErrors req))
  = Routes.licensechain secret req.
Proof.
  destruct req as [h b v].
  unfold Routes.licensechain, Routes.expectedSignature, Routes.payload.
  cbn [headers body validationErrors].
  rewrite lookup_insert_ne by discriminate. reflexivity.
Qed.

(** C1 (the code departs from it): the scenario, signed in the format of
    the LicenseChain route and carrying a timestamp header 600 seconds old,
    outside the 300 second window, reaches [handleLicenseCreated] and is
    answered 200: the route reads [timestamp] from the body and never uses
    it, looks at no timestamp header (what it does is the same whatever
    that header holds) and has no tolerance test, whereas [verifyWebhook]
    answers 401 "Webhook timestamp too old" to the same scenario with the
    same timestamp header. *)
Theorem C1_route_dispatches_stale_request :
  handler_invoked (Routes.licensechain scenario_secret stale_route_request)
  /\ outcome (Routes.licensechain scenario_secret stale_route_request) = Return Routes.received
  /\ ~ within_window 300 stale_route_request scenario_now
  /\ (forall ts,
        Routes.licensechain scenario_secret
          (mkRequest (<["x-licensechain-timestamp" := ts]> (headers stale_route_request))
                     (body stale_route_request) (validationErrors stale_route_request))
        = Routes.licensechain scenario_secret stale_route_request)
  /\ Utils.verifyWebhook scenario_handler
       (signed_request scenario_signature "1699999500" scenario_body) scenario_now
     = stale_request.
Proof.
  split; [|split; [|split; [|split]]].
  - exists "handleLicenseCreated". vm_compute. auto.
  - vm_compute. reflexivity.
  - intros (ts & T & Hts & HT & Habs).
    vm_compute in Hts. injection Hts as <-.
    vm_compute in HT. injection HT as <-.
    vm_compute in Habs. apply Habs. reflexivity.
  - intros ts. apply licensechain_ignores_timestamp.
  - vm_compute. reflexivity.
Qed.

(** ** Unknown event kinds *)

Lemma is_str_false (v : option json) (k : string) :
  v <> Some (JStr k) -> is_str v k = false.
Proof.
  destruct v as [[| | |s| |]|]; cbn; try reflexivity.
  intros Hne. apply strict_eq_false. congruence.
Qed.

Ltac unregistered H :=
  repeat match goal with
         | |- context [strict_eq ?a ?b] =>
             rewrite (strict_eq_false a b)
               by (let E := fresh in intros E; apply H; rewrite E; cbn; tauto)
         | |- context [is_str ?v ?k] =>
             rewrite (is_str_false v k) by (apply H; cbn; tauto)
         end.

(** C8: an event whose kind is none of the registered ones makes
    [processWebhookEvent] log the event, log that its type is unknown and
    return normally: nothing is thrown and no handler is entered, and the
    event that follows is processed as it would be on its own.  On the
    LicenseChain route such an event, validated and signed, is logged as
    unhandled and answered 200 [{received: true}], and no handler is
    entered.  (The route's log lines convert [event] to a string; for the
    strings that validation lets through this always succeeds.  Were
    [event] an object without a string form, the conversion would throw
    and the route would answer 500, still entering no handler.) *)
Theorem C8_unknown_kind_is_not_an_error (this : Utils.WebhookHandler)
    (event following : Utils.WebhookEvent) (secret : string) (req : Request)
    (props : list (string * json)) :
  (~ In (Utils.ev_type event) Utils.registered_kinds ->
   Utils.processWebhookEvent this event
   = mkM [Log Info ("Processing webhook event: " +:+ Utils.ev_type event
                    +:+ " for seller " +:+ Utils.ev_sellerId event);
          Log Warn ("Unknown webhook event type: " +:+ Utils.ev_type event)]
         (Return tt)
   /\ ~ handler_invoked (Utils.processWebhookEvent this event)
   /\ (Utils.processWebhookEvent this event;; Utils.processWebhookEvent this following)
      = mkM (effects (Utils.processWebhookEvent this event)
             ++ effects (Utils.processWebhookEvent this following))
            (outcome (Utils.processWebhookEvent this following)))
  /\ (validationErrors req = [] ->
      body req = JObj props ->
      headers req !! "x-licensechain-signature"
      = Some ("sha256=" +:+ Routes.expectedSignature secret req) ->
      (forall k, In k Routes.registered_kinds -> assoc "event" props <> Some (JStr k)) ->
      match ToString (assoc "event" props) with
      | Return shown =>
          Routes.licensechain secret req
          = mkM [Log Info ("LicenseChain webhook received: " +:+ shown);
                 Log Info ("Unhandled LicenseChain event type: " +:+ shown)]
                (Return Routes.received)
      | Throw _ =>
          Routes.licensechain secret req
          = mkM [Log Error "Error processing LicenseChain webhook:"] (Return Routes.failed)
      end
      /\ ~ handler_invoked (Routes.licensechain secret req)).
Proof.
  split.
  - intros Hnot.
    assert (Hrun : Utils.processWebhookEvent this event
                   = mkM [Log Info ("Processing webhook event: " +:+ Utils.ev_type event
                                    +:+ " for seller " +:+ Utils.ev_sellerId event);
                          Log Warn ("Unknown webhook event type: " +:+ Utils.ev_type event)]
                         (Return tt)).
    { unfold Utils.processWebhookEvent. unregistered Hnot. reflexivity. }
    split; [exact Hrun|split].
    + rewrite Hrun. intros [h Hin]. cbn in Hin.
      destruct Hin as [Hin|[Hin|[]]]; discriminate.
    + rewrite bind_unfold, Hrun. reflexivity.
  - intros Hval Hbody Hsig Hnot.
    unfold Routes.licensechain. rewrite Hval, Hsig, Hbody. cbn [get].
    rewrite !bind_lift_return.
    cbn [strict_neq]. rewrite strict_eq_refl. cbn [negb].
    destruct (ToString (assoc "event" props)) as [shown|e].
    + rewrite bind_lift_return.
      assert (Hnot' : forall k, In k Routes.registered_kinds ->
                                assoc "event" props <> Some (JStr k)) by exact Hnot.
      unregistered Hnot'. rewrite bind_lift_return.
      split; [reflexivity|].
      intros [h Hin]. cbn in Hin. destruct Hin as [Hin|[Hin|[]]]; discriminate.
    + split; [reflexivity|].
      intros [h Hin]. cbn in Hin. destruct Hin as [Hin|[]]; discriminate.
Qed.

(** C8 on an event and a route request of kind ["subscription.renewed"]. *)
Lemma C8_witness :
  (Utils.processWebhookEvent scenario_handler unknown_event
   = mkM [Log Info "Processing webhook event: subscription.renewed for seller seller_1";
          Log Warn "Unknown webhook event type: subscription.renewed"]
         (Return tt)
   /\ ~ handler_invoked (Utils.processWebhookEvent scenario_handler unknown_event)
   /\ (Utils.processWebhookEvent scenario_handler unknown_event;;
       Utils.processWebhookEvent scenario_handler unknown_event)
      = mkM (effects (Utils.processWebhookEvent scenario_handler unknown_event)
             ++ effects (Utils.processWebhookEvent scenario_handler unknown_event))
            (outcome (Utils.processWebhookEvent scenario_handler unknown_event)))
  /\ (Routes.licensechain scenario_secret unknown_route_request
      = mkM [Log Info "LicenseChain webhook received: subscription.renewed";
             Log Info "Unhandled LicenseChain event type: subscription.renewed"]
            (Return Routes.received)
      /\ ~ handler_invoked (Routes.licensechain scenario_secret unknown_route_request)).
Proof.
  split.
  - apply (C8_unknown_kind_is_not_an_error scenario_handler unknown_event unknown_event
             scenario_secret unknown_route_request unknown_props).
    cbn. intuition discriminate.
  - apply (C8_unknown_kind_is_not_an_error scenario_handler unknown_event unknown_event
             scenario_secret unknown_route_request unknown_props).
    + reflexivity.
    + reflexivity.
    + vm_compute. reflexivity.
    + intros k Hin. cbn in Hin. cbn. intuition (subst; discriminate).
Defined.

(** ** The two signature formats *)

Lemma licensechain_received_needs_signature (secret : string) (req : Request) :
  outcome (Routes.licensechain secret req) = Return Routes.received ->
  headers req !! "x-licensechain-signature"
  = Some ("sha256=" +:+ Routes.expectedSignature secret req).
Proof.
  unfold Routes.licensechain. intros Hout.
  destruct (validationErrors req) as [|e es]; [|discriminate].
  destruct (get (Some (body req)) "event") as [event|e1]; [|discriminate].
  rewrite bind_lift_return in Hout.
  destruct (get (Some (body req)) "data") as [data|e2]; [|discriminate].
  rewrite bind_lift_return in Hout.
  destruct (get (Some (body req)) "timestamp") as [timestamp|e3]; [|discriminate].
  rewrite bind_lift_return in Hout.
  destruct (headers req !! "x-licensechain-signature") as [sig|]; [|discriminate].
  cbn [strict_neq] in Hout.
  destruct (strict_eq sig ("sha256=" +:+ Routes.expectedSignature secret req)) eqn:E.
  - apply strict_eq_spec in E. congruence.
  - discriminate.
Qed.

Lemma append_length (s t : string) :
  String.length (s +:+ t) = (String.length s + String.length t)%nat.
Proof.
  induction s as [|c s IH]; [reflexivity|].
  change (String c s +:+ t) with (String c (s +:+ t)).
  cbn [String.length]. rewrite IH. reflexivity.
Qed.

Lemma bare_digest_is_not_prefixed (p s d : string) :
  Utils.createSignature p s <> "sha256=" +:+ hex_encode (SHA256.hmac (utf8 s) (utf8 d)).
Proof.
  intros H. apply (f_equal String.length) in H.
  rewrite createSignature_length, append_length, hex_encode_length, hmac_length in H.
  discriminate.
Qed.

Lemma licensechain_rejects (secret : string) (req : Request) :
  headers req !! "x-licensechain-signature"
  <> Some ("sha256=" +:+ Routes.expectedSignature secret req) ->
  validationErrors req = [] ->
  (exists props, body req = JObj props) ->
  Routes.licensechain secret req
  = mkM [Log Warn "Invalid LicenseChain webhook signature"] (Return Routes.invalid_signature).
Proof.
  intros Hsig Hval [props Hbody]. unfold Routes.licensechain.
  rewrite Hval, Hbody. cbn [get]. rewrite !bind_lift_return.
  destruct (headers req !! "x-licensechain-signature") as [sig|]; [|reflexivity].
  cbn [strict_neq]. rewrite strict_eq_false by congruence. reflexivity.
Qed.

Lemma prefixed_decodes_to_nothing (d : string) : Buffer_from_hex ("sha256=" +:+ d) = [].
Proof. reflexivity. Qed.

(** C10: the LicenseChain route answers 200 only if the signature header is
    ["sha256="] followed by the hexadecimal HMAC of the payload; a request
    whose header is the bare digest of [createSignature] for the same
    payload and secret enters no handler and is not answered 200, and when
    it passed validation with an object body it is answered 400 "Invalid
    signature"; and a header in the route's format is never accepted by
    [verifySignature], which throws on it. *)
Theorem C10_disjoint_signature_formats (secret : string) (req : Request) (P S d : string) :
  (outcome (Routes.licensechain secret req) = Return Routes.received ->
   headers req !! "x-licensechain-signature"
   = Some ("sha256=" +:+ Routes.expectedSignature secret req))
  /\ (headers req !! "x-licensechain-signature"
      = Some (Utils.createSignature (Routes.payload req) secret) ->
      ~ handler_invoked (Routes.licensechain secret req)
      /\ outcome (Routes.licensechain secret req) <> Return Routes.received
      /\ (validationErrors req = [] -> (exists props, body req = JObj props) ->
          Routes.licensechain secret req
          = mkM [Log Warn "Invalid LicenseChain webhook signature"]
                (Return Routes.invalid_signature)))
  /\ Utils.verifySignature P ("sha256=" +:+ d) S
     = Throw (RangeError "Input buffers must have the same byte length").
Proof.
  split; [apply licensechain_received_needs_signature|split].
  - intros Hbare.
    assert (Hne : headers req !! "x-licensechain-signature"
                  <> Some ("sha256=" +:+ Routes.expectedSignature secret req)).
    { rewrite Hbare. intros H. apply (inj Some) in H. revert H.
      apply bare_digest_is_not_prefixed. }
    split; [|split].
    + intros Hinv. apply licensechain_dispatch_needs_signature in Hinv. tauto.
    + intros Hout. apply licensechain_received_needs_signature in Hout. contradiction.
    + intros Hval Hbody. apply licensechain_rejects; assumption.
  - apply verifySignature_throws_iff. rewrite prefixed_decodes_to_nothing. cbn. lia.
Qed.

(** C10 on the scenario: the route answers 200 to the prefixed signature
    and 400 to the bare digest. *)
Lemma C10_witness :
  headers stale_route_request !! "x-licensechain-signature"
  = Some ("sha256=" +:+ Routes.expectedSignature scenario_secret stale_route_request)
  /\ (~ handler_invoked (Routes.licensechain scenario_secret bare_digest_request)
      /\ outcome (Routes.licensechain scenario_secret bare_digest_request)
         <> Return Routes.received
      /\ (validationErrors bare_digest_request = [] ->
          (exists props, body bare_digest_request = JObj props) ->
          Routes.licensechain scenario_secret bare_digest_request
          = mkM [Log Warn "Invalid LicenseChain webhook signature"]
                (Return Routes.invalid_signature))).
Proof.
  split.
  - apply (C10_disjoint_signature_formats scenario_secret stale_route_request
             EmptyString EmptyString EmptyString).
    vm_compute. reflexivity.
  - apply (C10_disjoint_signature_formats scenario_secret bare_digest_request
             EmptyString EmptyString EmptyString).
    apply signed_request_signature.
Defined.

(** ** The comparisons *)

Lemma timingSafeEqual_scan_reads_all (a b : Buffer) :
  match timingSafeEqual_scan a b with
  | Return r => snd r = List.length a
  | Throw _ => List.length a <> List.length b
  end.
Proof.
  unfold timingSafeEqual_scan.
  destruct (Nat.eqb_spec (List.length a) (List.length b)) as [Hlen|Hlen]; [|exact Hlen].
  rewrite memcmp_scan_count by exact Hlen. reflexivity.
Qed.

Lemma early_exit_scan_common_prefix (p : string) (c d : ascii) (s t : string) (n : nat) :
  c <> d ->
  early_exit_scan (p +:+ String c s) (p +:+ String d t) n
  = (false, (n + String.length p + 1)%nat).
Proof.
  intros Hcd. revert n. induction p as [|x p IH]; intros n.
  - change (early_exit_scan (String c s) (String d t) n = (false, (n + 0 + 1)%nat)).
    cbn [early_exit_scan]. destruct (Ascii.eqb_spec c d); [contradiction|].
    f_equal. lia.
  - change (early_exit_scan (String x (p +:+ String c s)) (String x (p +:+ String d t)) n
            = (false, (n + S (String.length p) + 1)%nat)).
    cbn [early_exit_scan]. rewrite Ascii.eqb_refl, IH. f_equal. lia.
Qed.

(** C9 (the code departs from it): [timingSafeEqual], which
    [verifySignature] and [verifyWebhook] use, reads every byte pair
    whatever the contents are; the LicenseChain route compares the header
    with [!==], which stops at the first differing character: of two wrong
    headers of the right length, both answered 400, the one wrong in its
    first character is settled after 1 position and the one wrong in its
    last character after 71.  The Stripe route compares with [!==] too. *)
Theorem C9_routes_compare_with_early_exit (JSON_parse : string -> completion json) :
  (forall a b : Buffer,
      match timingSafeEqual_scan a b with
      | Return r => snd r = List.length a
      | Throw _ => List.length a <> List.length b
      end)
  /\ Routes.licensechain scenario_secret (signed_request wrong_at_first "1700000000" scenario_body)
     = mkM [Log Warn "Invalid LicenseChain webhook signature"] (Return Routes.invalid_signature)
  /\ Routes.licensechain scenario_secret (signed_request wrong_at_last "1700000000" scenario_body)
     = mkM [Log Warn "Invalid LicenseChain webhook signature"] (Return Routes.invalid_signature)
  /\ snd (strict_eq_scan wrong_at_first
            ("sha256=" +:+ Routes.expectedSignature scenario_secret
                             (signed_request wrong_at_first "1700000000" scenario_body)))
     = 1%nat
  /\ snd (strict_eq_scan wrong_at_last
            ("sha256=" +:+ Routes.expectedSignature scenario_secret
                             (signed_request wrong_at_last "1700000000" scenario_body)))
     = 71%nat
  /\ Routes.stripe JSON_parse (Some scenario_secret)
       {[ "stripe-signature" := "0000000000000000000000000000000000000000000000000000000000000000" ]}
       (Routes.RawBody (utf8 spaced_body))
     = mkM [Log Warn "Invalid Stripe webhook signature"] (Return Routes.invalid_signature).
Proof.
  split; [exact timingSafeEqual_scan_reads_all|].
  repeat split; vm_compute; reflexivity.
Qed.

(** ** The signing input *)

Lemma join_head (sep : string) (rest : list string) (c : ascii) (p : string) :
  exists r, fold_left (fun acc q => acc +:+ sep +:+ q) rest (String c p) = String c r.
Proof.
  revert p. induction rest as [|q rest IH]; intros p; cbn [fold_left]; [eauto|].
  change (String c p +:+ sep +:+ q) with (String c (p +:+ sep +:+ q)). apply IH.
Qed.

Lemma decimal_head (n : Z) : exists c r, decimal n = String c r /\ c <> "{"%char.
Proof.
  unfold decimal. destruct (Z.to_int n) as [d|d]; destruct d; cbn;
    eexists _, _; (split; [reflexivity|discriminate]).
Qed.

(** No value serializes to the spaced body: an object serializes to ["{"]
    followed by a quote or by ["}"], never by a space. *)
Lemma JSON_stringify_never_spaced (v : json) : JSON_stringify v <> spaced_body.
Proof.
  destruct v as [|[|]|n|s|items|props]; cbn [JSON_stringify]; try discriminate.
  - destruct (decimal_head n) as (c & r & -> & Hc). intros [= H]. contradiction.
  - destruct props as [|[k v] rest]; [discriminate|].
    cbn [map join fst snd].
    generalize (map (fun kv => quote (fst kv) +:+ ":" +:+ JSON_stringify (snd kv)) rest).
    intros l. unfold quote.
    change ((String dquote (quote_chars k) +:+ String dquote EmptyString) +:+ ":" +:+ JSON_stringify v)
      with (String dquote ((quote_chars k +:+ String dquote EmptyString) +:+ ":" +:+ JSON_stringify v)).
    destruct (join_head "," l dquote
                ((quote_chars k +:+ String dquote EmptyString) +:+ ":" +:+ JSON_stringify v))
      as [r ->].
    discriminate.
Qed.

(** C6 (the code departs from it): the signing input of [verifyWebhook] and
    of the LicenseChain route is [JSON.stringify(req.body)], which differs
    from the bytes received as soon as the sender wrote a space: whatever
    the parsed body is, it is not the spaced body; and the scenario sent
    with that body, signed by the sender over the bytes sent, is answered
    400 by the route and 401 "Invalid webhook signature" by the middleware. *)
Theorem C6_signing_input_is_reserialized (req : Request) :
  Utils.payload req <> spaced_body
  /\ Routes.payload req <> spaced_body
  /\ Routes.licensechain scenario_secret
       (signed_request ("sha256=" +:+ spaced_signature) "1700000000" scenario_body)
     = mkM [Log Warn "Invalid LicenseChain webhook signature"] (Return Routes.invalid_signature)
  /\ Utils.verifyWebhook scenario_handler
       (signed_request spaced_signature "1700000000" scenario_body) scenario_now
     = signature_mismatch.
Proof.
  split; [apply JSON_stringify_never_spaced|].
  split; [apply JSON_stringify_never_spaced|].
  split; vm_compute; reflexivity.
Qed.

(** * Further properties of the code *)

(** ** More on the signature functions *)

Lemma hex_decode_app (b : Buffer) (t : string) :
  Buffer_from_hex (hex_encode b +:+ t) = b ++ Buffer_from_hex t.
Proof.
  induction b as [|x b IH]; [reflexivity|].
  cbn [hex_encode].
  change (String ?c1 (String ?c2 ?r) +:+ t) with (String c1 (String c2 (r +:+ t))).
  rewrite hex_pair_decodes, IH. reflexivity.
Qed.

Lemma hex_decode_stops (c : ascii) (rest : string) :
  unhex c = None -> Buffer_from_hex (String c rest) = [].
Proof.
  intros Hc. destruct rest as [|d rest]; [reflexivity|].
  cbn [Buffer_from_hex]. rewrite Hc. reflexivity.
Qed.

Lemma hex_decode_length (s : string) :
  (2 * List.length (Buffer_from_hex s) <= String.length s)%nat.
Proof.
  assert (H : forall n s, (String.length s <= n)%nat ->
                          (2 * List.length (Buffer_from_hex s) <= String.length s)%nat).
  { intros n. induction n as [|n IH]; intros s0 Hn.
    - destruct s0; [cbn; lia|cbn in Hn; lia].
    - destruct s0 as [|hi [|lo rest]]; try (cbn; lia).
      cbn [Buffer_from_hex]. destruct (unhex hi); [|cbn; lia].
      destruct (unhex lo); [|cbn; lia].
      cbn [List.length String.length] in *.
      specialize (IH rest). lia. }
  apply (H (String.length s)). lia.
Qed.

Lemma verifySignature_true_iff (P sig S : string) :
  Utils.verifySignature P sig S = Return true
  <-> Buffer_from_hex sig = SHA256.hmac (utf8 S) (utf8 P).
Proof.
  unfold Utils.verifySignature, Utils.createSignature. rewrite hex_roundtrip. split.
  - apply timingSafeEqual_true.
  - intros ->. apply timingSafeEqual_refl.
Qed.

(** X1: [verifySignature] returns [true] exactly when the candidate decodes
    to the HMAC-SHA256 of the payload under the secret, and returns [false]
    exactly when it decodes to 32 bytes that are not that HMAC. *)
Theorem X1_verifySignature_decides (P sig S : string) :
  (Utils.verifySignature P sig S = Return true
   <-> Buffer_from_hex sig = SHA256.hmac (utf8 S) (utf8 P))
  /\ (Utils.verifySignature P sig S = Return false
      <-> List.length (Buffer_from_hex sig) = 32%nat
          /\ Buffer_from_hex sig <> SHA256.hmac (utf8 S) (utf8 P)).
Proof.
  split; [apply verifySignature_true_iff|].
  unfold Utils.verifySignature, Utils.createSignature. rewrite hex_roundtrip.
  destruct (Nat.eq_dec (List.length (Buffer_from_hex sig)) 32%nat) as [Hlen|Hlen].
  - rewrite timingSafeEqual_same_length by (rewrite hmac_length; exact Hlen).
    destruct (fst (memcmp_scan _ _ true O)) eqn:E.
    + apply memcmp_scan_spec in E; [|rewrite hmac_length; exact Hlen].
      destruct E as [_ E]. split; [discriminate|]. intros [_ Hne]. contradiction.
    + split; [|reflexivity]. intros _. split; [exact Hlen|].
      intros Heq. rewrite Heq in E.
      assert (Ht : fst (memcmp_scan (SHA256.hmac (utf8 S) (utf8 P))
                          (SHA256.hmac (utf8 S) (utf8 P)) true O) = true)
        by (apply memcmp_scan_spec; auto).
      congruence.
  - rewrite timingSafeEqual_length_mismatch by (rewrite hmac_length; exact Hlen).
    split; [discriminate|]. intros [Hl _]. contradiction.
Qed.

(** X2: a candidate that starts with the right 64 hexadecimal digits is
    accepted whatever follows them, provided the next character is not a
    hexadecimal digit or is the last one: the decoding stops there and the
    rest is never compared. *)
Theorem X2_trailing_characters_are_ignored (P S : string) (c : ascii) (rest : string) :
  unhex c = None \/ rest = EmptyString ->
  Utils.verifySignature P (Utils.createSignature P S +:+ String c rest) S = Return true
  /\ Utils.verifyWebhookSignature P (Utils.createWebhookSignature P S +:+ String c rest) S
     = Return true.
Proof.
  intros H.
  assert (Hstop : Buffer_from_hex (String c rest) = []).
  { destruct H as [H| ->]; [apply hex_decode_stops, H|reflexivity]. }
  split.
  - apply verifySignature_true_iff. unfold Utils.createSignature.
    rewrite hex_decode_app, Hstop. apply app_nil_r.
  - unfold Utils.verifyWebhookSignature, Utils.createWebhookSignature.
    rewrite hex_decode_app, Hstop, app_nil_r, hex_roundtrip. apply timingSafeEqual_refl.
Qed.

(** X2 at the scenario's signature followed by ["; DROP"]. *)
Lemma X2_witness :
  Utils.verifySignature (JSON_stringify scenario_body)
    (Utils.createSignature (JSON_stringify scenario_body) scenario_secret +:+ String ";" " DROP")
    scenario_secret = Return true
  /\ Utils.verifyWebhookSignature (JSON_stringify scenario_body)
       (Utils.createWebhookSignature (JSON_stringify scenario_body) scenario_secret
        +:+ String ";" " DROP")
       scenario_secret = Return true.
Proof.
  apply (X2_trailing_characters_are_ignored (JSON_stringify scenario_body) scenario_secret
           ";" " DROP").
  left. reflexivity.
Defined.

Lemma unhex_toUpperCase (c : ascii) : unhex (ascii_toUpperCase c) = unhex c.
Proof. destruct c as [[] [] [] [] [] [] [] []]; reflexivity. Qed.

Lemma hex_decode_toUpperCase (s : string) :
  Buffer_from_hex (toUpperCase s) = Buffer_from_hex s.
Proof.
  assert (H : forall n s, (String.length s <= n)%nat ->
                          Buffer_from_hex (toUpperCase s) = Buffer_from_hex s).
  { intros n. induction n as [|n IH]; intros s0 Hn.
    - destruct s0; [reflexivity|cbn in Hn; lia].
    - destruct s0 as [|hi [|lo rest]]; try reflexivity.
      cbn [toUpperCase Buffer_from_hex]. rewrite !unhex_toUpperCase.
      rewrite IH by (cbn [String.length] in Hn; lia). reflexivity. }
  apply (H (String.length s)). lia.
Qed.

(** X3: [verifySignature] does not distinguish the case of the hexadecimal
    digits: a candidate and its upper-case form get the same answer, so the
    upper-case form of the signature is accepted. *)
Theorem X3_signature_case_is_ignored (P sig S : string) :
  Utils.verifySignature P (toUpperCase sig) S = Utils.verifySignature P sig S
  /\ Utils.verifySignature P (toUpperCase (Utils.createSignature P S)) S = Return true.
Proof.
  assert (H : forall x, Utils.verifySignature P (toUpperCase x) S
                        = Utils.verifySignature P x S).
  { intros x. unfold Utils.verifySignature. rewrite hex_decode_toUpperCase. reflexivity. }
  split; [apply H|]. rewrite H. apply verifySignature_true_iff.
  unfold Utils.createSignature. apply hex_roundtrip.
Qed.

(** ** [parseInt] reads back a decimal numeral *)

Lemma digits_stop (c : ascii) (rest : string) (acc : option Z) :
  digit_value 10 c = None -> digits 10 (String c rest) acc = acc.
Proof. intros H. cbn [digits]. rewrite H. reflexivity. Qed.

Ltac read_digit :=
  cbn [digits];
  match goal with
  | |- context [digit_value 10 ?c] =>
      let v := eval vm_compute in (digit_value 10 c) in
      change (digit_value 10 c) with v
  end;
  cbv iota; cbn [default from_option id].

Lemma digits_uint_acc (d : Decimal.uint) (t : string) (acc : positive) :
  digits 10 (NilEmpty.string_of_uint d +:+ t) (Some (Z.pos acc))
  = digits 10 t (Some (Z.pos (Pos.of_uint_acc d acc))).
Proof.
  revert acc. induction d as [|d IH|d IH|d IH|d IH|d IH|d IH|d IH|d IH|d IH|d IH];
    intros acc; [reflexivity|..];
    cbn [NilEmpty.string_of_uint Pos.of_uint_acc];
    change (String ?c ?r +:+ t) with (String c (r +:+ t));
    rewrite <- IH; read_digit; do 2 f_equal; lia.
Qed.

Lemma digits_uint (d : Decimal.uint) (t : string) (acc : option Z) :
  acc = None \/ acc = Some 0 ->
  digits 10 (NilEmpty.string_of_uint d +:+ t) acc
  = digits 10 t (match d with
                 | Decimal.Nil => acc
                 | _ => Some (Z.of_N (Pos.of_uint d))
                 end).
Proof.
  revert acc. induction d as [|d IH|d IH|d IH|d IH|d IH|d IH|d IH|d IH|d IH|d IH];
    intros acc Hacc; [reflexivity|..];
    cbn [NilEmpty.string_of_uint Pos.of_uint];
    change (String ?c ?r +:+ t) with (String c (r +:+ t));
    read_digit;
    try (destruct Hacc as [-> | ->]; apply digits_uint_acc).
  assert (E : Some (10 * default 0 acc + 0) = Some 0)
    by (destruct Hacc as [-> | ->]; reflexivity).
  rewrite E, IH by auto. destruct d; reflexivity.
Qed.

Lemma digits_end (t : string) (acc : option Z) : ends_the_number t -> digits 10 t acc = acc.
Proof.
  destruct t as [|c rest]; [reflexivity|]. intros (H & _ & _). apply digits_stop, H.
Qed.

Lemma parseInt_zero_then (t : string) :
  ends_the_number t -> forall sign : bool,
  parseInt ((if sign then String "-" EmptyString else EmptyString) +:+ String "0" t)
  = match digits 10 (String "0" t) None with
    | Some m => Num ((if sign then -1 else 1) * m)
    | None => NaN
    end.
Proof.
  intros Ht sign. destruct t as [|c rest]; [destruct sign; reflexivity|].
  destruct Ht as (_ & Hx & HX).
  destruct c as [[] [] [] [] [] [] [] []]; destruct sign; try reflexivity; congruence.
Qed.

Lemma parseInt_uint (d : Decimal.uint) (t : string) (sign : bool) :
  d <> Decimal.Nil -> ends_the_number t ->
  parseInt ((if sign then String "-" EmptyString else EmptyString)
            +:+ NilEmpty.string_of_uint d +:+ t)
  = Num ((if sign then -1 else 1) * Z.of_N (Pos.of_uint d)).
Proof.
  intros Hd Ht.
  assert (Hdig : digits 10 (NilEmpty.string_of_uint d +:+ t) None
                 = Some (Z.of_N (Pos.of_uint d))).
  { rewrite digits_uint by auto. rewrite digits_end by exact Ht.
    destruct d; [contradiction|reflexivity..]. }
  assert (Hp : parseInt ((if sign then String "-" EmptyString else EmptyString)
                         +:+ NilEmpty.string_of_uint d +:+ t)
               = match digits 10 (NilEmpty.string_of_uint d +:+ t) None with
                 | Some m => Num ((if sign then -1 else 1) * m)
                 | None => NaN
                 end).
  { destruct d as [|l|l|l|l|l|l|l|l|l|l]; [contradiction| |destruct sign; reflexivity..].
    destruct l as [|l|l|l|l|l|l|l|l|l|l]; try (destruct sign; reflexivity).
    apply (parseInt_zero_then t Ht sign). }
  rewrite Hp, Hdig. reflexivity.
Qed.

Lemma parseInt_decimal_then (z : Z) (t : string) :
  ends_the_number t -> parseInt (decimal z +:+ t) = Num z.
Proof.
  intros Ht. rewrite <- (DecimalZ.of_to z) at 2.
  unfold decimal, NilZero.string_of_int. destruct z as [|p|p]; cbn [Z.to_int Z.of_int].
  - apply (parseInt_uint (Decimal.D0 Decimal.Nil) t false); [discriminate|exact Ht].
  - pose proof (DecimalPos.Unsigned.to_uint_nonnil p) as Hn.
    replace (NilZero.string_of_uint (Pos.to_uint p))
      with (NilEmpty.string_of_uint (Pos.to_uint p))
      by (unfold NilZero.string_of_uint; destruct (Pos.to_uint p); [contradiction|reflexivity..]).
    transitivity (Num (1 * Z.of_N (Pos.of_uint (Pos.to_uint p))));
      [exact (parseInt_uint (Pos.to_uint p) t false Hn Ht)|].
    unfold Z.of_uint. f_equal; try lia.
  - pose proof (DecimalPos.Unsigned.to_uint_nonnil p) as Hn.
    replace (NilZero.string_of_uint (Pos.to_uint p))
      with (NilEmpty.string_of_uint (Pos.to_uint p))
      by (unfold NilZero.string_of_uint; destruct (Pos.to_uint p); [contradiction|reflexivity..]).
    transitivity (Num (-1 * Z.of_N (Pos.of_uint (Pos.to_uint p))));
      [exact (parseInt_uint (Pos.to_uint p) t true Hn Ht)|].
    unfold Z.of_uint. f_equal; try lia.
Qed.

(** ** More on [createSignature] and [verifyWebhook] *)

Lemma hex_encode_lower (b : Buffer) : string_forallb is_lower_hex (hex_encode b) = true.
Proof.
  induction b as [|x b IH]; [reflexivity|].
  cbn [hex_encode string_forallb]. rewrite IH.
  destruct x; reflexivity.
Qed.

(** X4: the signature that [createSignature] returns is 64 characters long,
    each of them one of [0-9a-f], and [createWebhookSignature] returns the
    same string. *)
Theorem X4_createSignature_format (P S : string) :
  String.length (Utils.createSignature P S) = 64%nat
  /\ string_forallb is_lower_hex (Utils.createSignature P S) = true
  /\ Utils.createWebhookSignature P S = Utils.createSignature P S.
Proof.
  split; [apply createSignature_length|].
  split; [apply hex_encode_lower|reflexivity].
Qed.

(** X5: for a request that carries both headers and whose timestamp is not
    too old, [verifyWebhook] calls [next()] exactly when the signature
    header decodes to the HMAC of the payload, answers 401 "Invalid webhook
    signature" exactly when it decodes to 32 other bytes, and answers 500
    exactly when it decodes to another number of bytes. *)
Theorem X5_fresh_request_is_judged_by_its_signature (this : Utils.WebhookHandler)
    (req : Request) (now : Z) (sig ts : string) :
  headers req !! "x-licensechain-signature" = Some sig -> sig <> EmptyString ->
  headers req !! "x-licensechain-timestamp" = Some ts -> ts <> EmptyString ->
  too_old this now ts = false ->
  (Utils.verifyWebhook this req now = accepted
   <-> Buffer_from_hex sig
       = SHA256.hmac (utf8 (Utils.secret (Utils.config this))) (utf8 (Utils.payload req)))
  /\ (Utils.verifyWebhook this req now = signature_mismatch
      <-> List.length (Buffer_from_hex sig) = 32%nat
          /\ Buffer_from_hex sig
             <> SHA256.hmac (utf8 (Utils.secret (Utils.config this))) (utf8 (Utils.payload req)))
  /\ (Utils.verifyWebhook this req now = verification_failed
      <-> List.length (Buffer_from_hex sig) <> 32%nat).
Proof.
  intros Hsig Hsne Hts Htne Hold.
  rewrite (verifyWebhook_present this req now sig ts)
    by (rewrite ?Hsig, ?Hts; apply truthy_nonempty; assumption).
  rewrite Hold.
  set (mac := SHA256.hmac (utf8 (Utils.secret (Utils.config this))) (utf8 (Utils.payload req))).
  assert (Hmac : List.length mac = 32%nat) by apply hmac_length.
  destruct (Nat.eq_dec (List.length (Buffer_from_hex sig)) 32%nat) as [Hlen|Hlen].
  - rewrite timingSafeEqual_same_length by congruence.
    destruct (fst (memcmp_scan (Buffer_from_hex sig) mac true O)) eqn:E.
    + apply memcmp_scan_spec in E; [|congruence]. destruct E as [_ E].
      split; [tauto|]. split; [|split; [discriminate|contradiction]].
      split; [discriminate|]. intros [_ Hne]. contradiction.
    + assert (Hne : Buffer_from_hex sig <> mac).
      { intros Heq.
        assert (Ht : fst (memcmp_scan (Buffer_from_hex sig) mac true O) = true)
          by (apply memcmp_scan_spec; [congruence|auto]).
        congruence. }
      split; [split; [discriminate|contradiction]|].
      split; [tauto|]. split; [discriminate|contradiction].
  - rewrite timingSafeEqual_length_mismatch by congruence.
    split; [split; [discriminate|intros Heq; rewrite Heq in Hlen; contradiction]|].
    split; [split; [discriminate|tauto]|tauto].
Qed.

(** X5 on the scenario whose signature has its last digit altered: 401. *)
Lemma X5_witness :
  Utils.verifyWebhook scenario_handler
    (signed_request
       "590244a968979322071d4fc2c577c2a5ba91800ebf528e8e70c8d88cf51fc635"
       "1700000000" scenario_body) scenario_now
  = signature_mismatch.
Proof.
  apply (X5_fresh_request_is_judged_by_its_signature scenario_handler
           (signed_request
              "590244a968979322071d4fc2c577c2a5ba91800ebf528e8e70c8d88cf51fc635"
              "1700000000" scenario_body) scenario_now
           "590244a968979322071d4fc2c577c2a5ba91800ebf528e8e70c8d88cf51fc635"
           "1700000000");
    try (vm_compute; reflexivity); try discriminate.
  split; [vm_compute; reflexivity|vm_compute; discriminate].
Defined.

(** X6: [verifyWebhook] never throws and never leaves a request unanswered:
    for every handler, request and clock it logs one entry and either calls
    [next()] or sends one of its four responses (401 missing, 401 too old,
    401 invalid signature, 500). *)
Theorem X6_verifyWebhook_always_answers (this : Utils.WebhookHandler) (req : Request) (now : Z) :
  Utils.verifyWebhook this req now = missing_credentials
  \/ Utils.verifyWebhook this req now = stale_request
  \/ Utils.verifyWebhook this req now = signature_mismatch
  \/ Utils.verifyWebhook this req now = verification_failed
  \/ Utils.verifyWebhook this req now = accepted.
Proof.
  destruct (truthy (headers req !! "x-licensechain-signature")) as [sig|] eqn:Hsig;
    [destruct (truthy (headers req !! "x-licensechain-timestamp")) as [ts|] eqn:Hts|].
  - rewrite (verifyWebhook_present this req now sig ts Hsig Hts).
    destruct (too_old this now ts); [tauto|].
    destruct (timingSafeEqual _ _) as [[|]|e]; tauto.
  - left. apply verifyWebhook_missing. auto.
  - left. apply verifyWebhook_missing. auto.
Qed.

(** X7: a signature header or a timestamp header that is present but empty
    counts as missing: the request is answered 401 "Missing webhook
    signature or timestamp". *)
Theorem X7_empty_header_counts_as_missing (this : Utils.WebhookHandler) (req : Request)
    (now : Z) :
  headers req !! "x-licensechain-signature" = Some EmptyString
  \/ headers req !! "x-licensechain-timestamp" = Some EmptyString ->
  Utils.verifyWebhook this req now = missing_credentials.
Proof.
  intros [H|H]; apply verifyWebhook_missing; rewrite H; auto.
Qed.

(** X7 on the scenario with an empty timestamp header. *)
Lemma X7_witness :
  Utils.verifyWebhook scenario_handler
    (signed_request scenario_signature EmptyString scenario_body) scenario_now
  = missing_credentials.
Proof.
  apply (X7_empty_header_counts_as_missing scenario_handler
           (signed_request scenario_signature EmptyString scenario_body) scenario_now).
  right. apply signed_request_timestamp.
Defined.

(** X8: [verifyWebhook] never calls [next()] for a signature header of
    fewer than 64 characters. *)
Theorem X8_short_signature_never_passes (this : Utils.WebhookHandler) (req : Request)
    (now : Z) (sig : string) :
  headers req !! "x-licensechain-signature" = Some sig ->
  (String.length sig < 64)%nat ->
  outcome (Utils.verifyWebhook this req now) <> Return NextCalled.
Proof.
  intros Hsig Hshort Hnext.
  destruct (verifyWebhook_next_needs_checks this req now Hnext)
    as (sig' & ts & Hsig' & _ & _ & _ & _ & Hmac).
  assert (sig' = sig) by congruence. subst sig'.
  pose proof (hex_decode_length sig) as Hlen.
  rewrite Hmac, hmac_length in Hlen. lia.
Qed.

(** X8 on the scenario with the signature cut to its first 62 digits. *)
Lemma X8_witness :
  outcome (Utils.verifyWebhook scenario_handler
             (signed_request "590244a968979322071d4fc2c577c2a5ba91800ebf528e8e70c8d88cf51fc6"
                             "1700000000" scenario_body) scenario_now)
  <> Return NextCalled.
Proof.
  apply (X8_short_signature_never_passes scenario_handler
           (signed_request "590244a968979322071d4fc2c577c2a5ba91800ebf528e8e70c8d88cf51fc6"
                           "1700000000" scenario_body) scenario_now
           "590244a968979322071d4fc2c577c2a5ba91800ebf528e8e70c8d88cf51fc6").
  - apply signed_request_signature.
  - vm_compute. lia.
Defined.

(** X9: [webhookMiddleware] reads the timestamp header by its leading
    decimal numeral and applies the 300 second window to it: a request
    signed over its payload whose timestamp header is the decimal form of
    [T], possibly followed by text that starts with neither a digit nor
    [x], is passed on when [|floor(now / 1000) - T| <= 300] and answered
    401 "Webhook timestamp too old" otherwise. *)
Theorem X9_middleware_window (secret : string) (b : json) (T now : Z) (t : string) :
  ends_the_number t ->
  (Z.abs (now / 1000 - T) <= 300 ->
   Utils.webhookMiddleware secret
     (signed_request (Utils.createSignature (JSON_stringify b) secret) (decimal T +:+ t) b) now
   = accepted)
  /\ (300 < Z.abs (now / 1000 - T) ->
      Utils.webhookMiddleware secret
        (signed_request (Utils.createSignature (JSON_stringify b) secret) (decimal T +:+ t) b) now
      = stale_request).
Proof.
  intros Ht.
  assert (Hstep := verifyWebhook_present (Utils.constructor (Utils.mkConfig secret None))
                     (signed_request (Utils.createSignature (JSON_stringify b) secret)
                                     (decimal T +:+ t) b)
                     now (Utils.createSignature (JSON_stringify b) secret) (decimal T +:+ t)).
  assert (Hne : decimal T +:+ t <> EmptyString).
  { intros E. pose proof (parseInt_decimal_then T t Ht) as HP. rewrite E in HP. discriminate. }
  rewrite signed_request_signature, signed_request_timestamp in Hstep.
  rewrite (truthy_nonempty _ (createSignature_nonempty _ _)), (truthy_nonempty _ Hne) in Hstep.
  specialize (Hstep eq_refl eq_refl).
  unfold too_old in Hstep. rewrite (parseInt_decimal_then T t Ht) in Hstep.
  cbn [num_sub Math_abs ToNumber num_gt read_property Utils.constructor Utils.config
       Utils.tolerance Utils.secret Utils.payload body signed_request] in Hstep.
  unfold Utils.webhookMiddleware. split.
  - intros Hfresh. rewrite Hstep.
    destruct (Z.ltb_spec 300 (Z.abs (now / 1000 - T))); [lia|].
    unfold Utils.createSignature. rewrite hex_roundtrip, timingSafeEqual_refl. reflexivity.
  - intros Hstale. rewrite Hstep.
    destruct (Z.ltb_spec 300 (Z.abs (now / 1000 - T))); [reflexivity|lia].
Qed.

(** X9 at the edges of the window: 300 seconds late and followed by text is
    accepted, 301 seconds early is rejected. *)
Lemma X9_witness :
  Utils.webhookMiddleware scenario_secret
    (signed_request (Utils.createSignature (JSON_stringify scenario_body) scenario_secret)
                    (decimal 1699999800 +:+ " UTC") scenario_body) scenario_now
  = accepted
  /\ Utils.webhookMiddleware scenario_secret
       (signed_request (Utils.createSignature (JSON_stringify scenario_body) scenario_secret)
                       (decimal 1700000401 +:+ EmptyString) scenario_body) scenario_now
     = stale_request.
Proof.
  split.
  - apply (X9_middleware_window scenario_secret scenario_body 1699999800 scenario_now " UTC").
    + vm_compute. repeat split; discriminate.
    + vm_compute. discriminate.
  - apply (X9_middleware_window scenario_secret scenario_body 1700000401 scenario_now
             EmptyString).
    + exact I.
    + vm_compute. reflexivity.
Defined.

(** ** Dispatch in [WebhookHandler.processWebhookEvent] *)

Lemma forallb_prints (props : list (string * json)) (k : string) :
  forallb (fun kv => prints (Some (snd kv))) props = true ->
  exists s, ToString (assoc k props) = Return s.
Proof.
  induction props as [|[k' v] rest IH]; cbn [forallb assoc snd]; intros H.
  - eexists. reflexivity.
  - apply andb_true_iff in H as [Hv Hrest].
    destruct (String.eqb k k'); [|apply IH, Hrest].
    unfold prints in Hv. destruct (ToString (Some v)) as [s|e]; [eauto|discriminate].
Qed.

Lemma field_prints (d : option json) (k : string) :
  fields_print d = true -> exists s, field d k = mret s.
Proof.
  destruct d as [[| | | | |props]|]; cbn [fields_print]; intros H; try discriminate;
    try (eexists; reflexivity).
  destruct (forallb_prints props k H) as [s Hs].
  exists s. unfold field. cbn [get]. rewrite bind_lift_return, Hs. reflexivity.
Qed.

Ltac read_fields H d :=
  repeat match goal with
         | |- context [field d ?k] =>
             let s := fresh "s" in
             let E := fresh "E" in
             destruct (field_prints d k H) as [s E]; rewrite E; clear E
         end.

Lemma processWebhookEvent_registered (this : Utils.WebhookHandler)
    (event : Utils.WebhookEvent) (h : string) :
  In (Utils.ev_type event, h) utils_dispatch ->
  fields_print (Utils.ev_data event) = true ->
  outcome (Utils.processWebhookEvent this event) = Return tt
  /\ invoked (Utils.processWebhookEvent this event) = [h].
Proof.
  destruct event as [i ty d ts sid]. cbn [Utils.ev_type Utils.ev_data].
  intros Hin Hp.
  unfold Utils.processWebhookEvent, Utils.handleLicenseCreated, Utils.handleLicenseUpdated,
    Utils.handleLicenseRevoked, Utils.handleLicenseExpired, Utils.handlePaymentCompleted,
    Utils.handlePaymentFailed, Utils.handlePaymentRefunded, Utils.handleUserCreated,
    Utils.handleUserUpdated, Utils.handleProductCreated, Utils.handleProductUpdated.
  cbn [Utils.ev_type Utils.ev_data Utils.ev_sellerId].
  read_fields Hp d.
  unfold utils_dispatch in Hin. cbn [In] in Hin.
  repeat (destruct Hin as [Hin|Hin];
          [injection Hin as <- <-; vm_compute; split; reflexivity|]).
  contradiction.
Qed.

(** X10: for an event of a registered kind whose [data] is neither
    [undefined] nor [null] and whose properties all convert to strings,
    [processWebhookEvent] enters exactly one handler, the one its [switch]
    names for that kind (no case falls through to the next), and returns
    normally; when reading and converting [data.id] throws, the handler is
    entered all the same and the exception leaves [processWebhookEvent]. *)
Theorem X10_registered_kind_reaches_its_handler (this : Utils.WebhookHandler)
    (event : Utils.WebhookEvent) (h : string) :
  In (Utils.ev_type event, h) utils_dispatch ->
  (fields_print (Utils.ev_data event) = true ->
   outcome (Utils.processWebhookEvent this event) = Return tt
   /\ invoked (Utils.processWebhookEvent this event) = [h])
  /\ (forall e, field (Utils.ev_data event) "id" = mkM [] (Throw e) ->
                outcome (Utils.processWebhookEvent this event) = Throw e
                /\ invoked (Utils.processWebhookEvent this event) = [h]).
Proof.
  intros Hin. split; [apply processWebhookEvent_registered, Hin|].
  destruct event as [i ty d ts sid]. cbn [Utils.ev_type Utils.ev_data] in *.
  intros e He.
  unfold Utils.processWebhookEvent, Utils.handleLicenseCreated, Utils.handleLicenseUpdated,
    Utils.handleLicenseRevoked, Utils.handleLicenseExpired, Utils.handlePaymentCompleted,
    Utils.handlePaymentFailed, Utils.handlePaymentRefunded, Utils.handleUserCreated,
    Utils.handleUserUpdated, Utils.handleProductCreated, Utils.handleProductUpdated.
  cbn [Utils.ev_type Utils.ev_data Utils.ev_sellerId]. rewrite He.
  unfold utils_dispatch in Hin. cbn [In] in Hin.
  repeat (destruct Hin as [Hin|Hin];
          [injection Hin as <- <-; vm_compute; split; reflexivity|]).
  contradiction.
Qed.

(** X10 on a ["payment.completed"] event, and on one whose [data.id] is an
    object with an own [toString] property. *)
Lemma X10_witness :
  (outcome (Utils.processWebhookEvent scenario_handler
              (Utils.mkEvent "evt_2" "payment.completed"
                 (Some (JObj [("id", JStr "pay_1"); ("licenseId", JStr "lic_1")]))
                 "2024-01-01T00:00:00Z" "seller_1"))
   = Return tt
   /\ invoked (Utils.processWebhookEvent scenario_handler
                 (Utils.mkEvent "evt_2" "payment.completed"
                    (Some (JObj [("id", JStr "pay_1"); ("licenseId", JStr "lic_1")]))
                    "2024-01-01T00:00:00Z" "seller_1"))
      = ["handlePaymentCompleted"])
  /\ (outcome (Utils.processWebhookEvent scenario_handler
                 (Utils.mkEvent "evt_4" "user.created"
                    (Some (JObj [("id", JObj [("toString", JNum 1)])]))
                    "2024-01-01T00:00:00Z" "seller_1"))
      = Throw (TypeError "Cannot convert object to primitive value")
      /\ invoked (Utils.processWebhookEvent scenario_handler
                    (Utils.mkEvent "evt_4" "user.created"
                       (Some (JObj [("id", JObj [("toString", JNum 1)])]))
                       "2024-01-01T00:00:00Z" "seller_1"))
         = ["handleUserCreated"]).
Proof.
  split.
  - apply (X10_registered_kind_reaches_its_handler scenario_handler
             (Utils.mkEvent "evt_2" "payment.completed"
                (Some (JObj [("id", JStr "pay_1"); ("licenseId", JStr "lic_1")]))
                "2024-01-01T00:00:00Z" "seller_1")
             "handlePaymentCompleted").
    + cbn. tauto.
    + reflexivity.
  - apply (X10_registered_kind_reaches_its_handler scenario_handler
             (Utils.mkEvent "evt_4" "user.created"
                (Some (JObj [("id", JObj [("toString", JNum 1)])]))
                "2024-01-01T00:00:00Z" "seller_1")
             "handleUserCreated").
    + cbn. tauto.
    + reflexivity.
Defined.

(** X11: [processWebhookEvent] does not catch what a handler throws: for an
    event of a registered kind whose [data] is [undefined] or [null], the
    handler is entered and the [TypeError] of reading [data.id] leaves
    [processWebhookEvent], and the module-level [processWebhookEvent]
    likewise. *)
Theorem X11_handler_error_escapes (this : Utils.WebhookHandler)
    (event : Utils.WebhookEvent) (h secret : string) :
  In (Utils.ev_type event, h) utils_dispatch ->
  readable (Utils.ev_data event) = false ->
  (exists msg, outcome (Utils.processWebhookEvent this event) = Throw (TypeError msg))
  /\ invoked (Utils.processWebhookEvent this event) = [h]
  /\ (exists msg, outcome (Utils.processWebhookEvent' event secret) = Throw (TypeError msg)).
Proof.
  destruct event as [i ty d ts sid]. cbn [Utils.ev_type Utils.ev_data].
  intros Hin Hread. unfold utils_dispatch in Hin. cbn [In] in Hin.
  destruct d as [[| | | | |]|]; try discriminate;
    repeat (destruct Hin as [Hin|Hin];
            [injection Hin as <- <-; vm_compute;
             split; [eexists; reflexivity|split; [reflexivity|eexists; reflexivity]]|]);
    contradiction.
Qed.

(** X11 on a ["license.revoked"] event without [data]. *)
Lemma X11_witness :
  (exists msg,
      outcome (Utils.processWebhookEvent scenario_handler
                 (Utils.mkEvent "evt_3" "license.revoked" None "2024-01-01T00:00:00Z" "seller_1"))
      = Throw (TypeError msg))
  /\ invoked (Utils.processWebhookEvent scenario_handler
                (Utils.mkEvent "evt_3" "license.revoked" None "2024-01-01T00:00:00Z" "seller_1"))
     = ["handleLicenseRevoked"]
  /\ (exists msg,
         outcome (Utils.processWebhookEvent'
                    (Utils.mkEvent "evt_3" "license.revoked" None "2024-01-01T00:00:00Z"
                                   "seller_1") scenario_secret)
         = Throw (TypeError msg)).
Proof.
  apply (X11_handler_error_escapes scenario_handler
           (Utils.mkEvent "evt_3" "license.revoked" None "2024-01-01T00:00:00Z" "seller_1")
           "handleLicenseRevoked" scenario_secret).
  - cbn. tauto.
  - reflexivity.
Defined.

(** X19: [processWebhookEvent] keeps no record of the events it has seen:
    processing twice the same event of a registered kind, whose [data] is
    neither [undefined] nor [null] and whose properties all convert to
    strings, enters its handler twice. *)
Theorem X19_no_deduplication (this : Utils.WebhookHandler)
    (event : Utils.WebhookEvent) (h : string) :
  In (Utils.ev_type event, h) utils_dispatch ->
  fields_print (Utils.ev_data event) = true ->
  outcome (Utils.processWebhookEvent this event;; Utils.processWebhookEvent this event)
  = Return tt
  /\ invoked (Utils.processWebhookEvent this event;; Utils.processWebhookEvent this event)
     = [h; h].
Proof.
  intros Hin Hread.
  destruct (processWebhookEvent_registered this event h Hin Hread) as [Hout Hinv].
  rewrite bind_unfold, Hout. cbn [outcome]. split; [reflexivity|].
  unfold invoked in *. cbn [effects]. rewrite flat_map_app, Hinv. reflexivity.
Qed.

(** X19 on the scenario's event delivered twice. *)
Lemma X19_witness :
  outcome (Utils.processWebhookEvent scenario_handler
             (Utils.mkEvent "evt_1" "license.created" (Some (JObj [("id", JStr "lic_1")]))
                            "2024-01-01T00:00:00Z" "seller_1");;
           Utils.processWebhookEvent scenario_handler
             (Utils.mkEvent "evt_1" "license.created" (Some (JObj [("id", JStr "lic_1")]))
                            "2024-01-01T00:00:00Z" "seller_1"))
  = Return tt
  /\ invoked (Utils.processWebhookEvent scenario_handler
                (Utils.mkEvent "evt_1" "license.created" (Some (JObj [("id", JStr "lic_1")]))
                               "2024-01-01T00:00:00Z" "seller_1");;
              Utils.processWebhookEvent scenario_handler
                (Utils.mkEvent "evt_1" "license.created" (Some (JObj [("id", JStr "lic_1")]))
                               "2024-01-01T00:00:00Z" "seller_1"))
     = ["handleLicenseCreated"; "handleLicenseCreated"].
Proof.
  apply (X19_no_deduplication scenario_handler
           (Utils.mkEvent "evt_1" "license.created" (Some (JObj [("id", JStr "lic_1")]))
                          "2024-01-01T00:00:00Z" "seller_1")
           "handleLicenseCreated").
  - cbn. tauto.
  - reflexivity.
Defined.

(** ** The LicenseChain route: every request is answered *)

Lemma logged_dispatch_is_answered (msg what : string) (d : M unit) :
  outcome (try_catch (log Info msg;; d;; mret Routes.received)
                     (fun _ => log Error what;; mret Routes.failed))
  = Return Routes.received
  \/ outcome (try_catch (log Info msg;; d;; mret Routes.received)
                        (fun _ => log Error what;; mret Routes.failed))
     = Return Routes.failed.
Proof. destruct d as [eff [[]|e]]; [left|right]; reflexivity. Qed.

(** X12: the LicenseChain route never throws and always answers.  A request
    with validation errors is answered 400 with those errors before
    anything is logged or compared, whatever its signature is; any other
    request is answered 400 "Invalid signature", 200 [{received: true}] or
    500 "Webhook processing failed". *)
Theorem X12_licensechain_always_answers (secret : string) (req : Request) :
  (validationErrors req <> []
   /\ Routes.licensechain secret req
      = mkM [] (Return (Responded 400 (JObj [("errors", JArr (validationErrors req))]))))
  \/ (validationErrors req = []
      /\ (outcome (Routes.licensechain secret req) = Return Routes.invalid_signature
          \/ outcome (Routes.licensechain secret req) = Return Routes.received
          \/ outcome (Routes.licensechain secret req) = Return Routes.failed)).
Proof.
  unfold Routes.licensechain. destruct (validationErrors req) as [|e es].
  2:{ left. split; [discriminate|reflexivity]. }
  right. split; [reflexivity|].
  destruct (get (Some (body req)) "event") as [event|e1]; [|right; right; reflexivity].
  rewrite bind_lift_return.
  destruct (get (Some (body req)) "data") as [data|e2]; [|right; right; reflexivity].
  rewrite bind_lift_return.
  destruct (get (Some (body req)) "timestamp") as [timestamp|e3]; [|right; right; reflexivity].
  rewrite bind_lift_return.
  destruct (strict_neq _ _); [left; reflexivity|right].
  destruct (ToString event) as [shown|e4]; [|right; reflexivity].
  rewrite bind_lift_return. apply logged_dispatch_is_answered.
Qed.

Ltac unfold_route_handlers :=
  unfold Routes.handleLicenseCreated, Routes.handleLicenseUpdated, Routes.handleLicenseDeleted,
    Routes.handleUserRegistered, Routes.handleUserUpdated, Routes.handleApplicationCreated,
    Routes.handleApplicationUpdated, Routes.handlePaymentSucceeded, Routes.handlePaymentFailed,
    Routes.handleSubscriptionCreated, Routes.handleSubscriptionUpdated,
    Routes.handleSubscriptionDeleted, Routes.handleInvoicePaymentSucceeded,
    Routes.handleInvoicePaymentFailed.

(** X13: on the LicenseChain route a request that passed validation, has an
    object body and carries the expected signature header, whose [event] is
    one of the registered kinds and whose [data] is neither [undefined] nor
    [null] and has only properties that convert to strings, enters exactly
    one handler, the one the [switch] names for that kind, and is answered
    200 [{received: true}]; when reading and converting [data.id] throws,
    the handler is entered and the answer is 500. *)
Theorem X13_licensechain_reaches_the_handler (secret : string) (req : Request)
    (props : list (string * json)) (kind h : string) :
  validationErrors req = [] ->
  body req = JObj props ->
  headers req !! "x-licensechain-signature"
  = Some ("sha256=" +:+ Routes.expectedSignature secret req) ->
  assoc "event" props = Some (JStr kind) ->
  In (kind, h) licensechain_dispatch ->
  (fields_print (assoc "data" props) = true ->
   outcome (Routes.licensechain secret req) = Return Routes.received
   /\ invoked (Routes.licensechain secret req) = [h])
  /\ (forall e, field (assoc "data" props) "id" = mkM [] (Throw e) ->
                outcome (Routes.licensechain secret req) = Return Routes.failed
                /\ invoked (Routes.licensechain secret req) = [h]).
Proof.
  intros Hval Hbody Hsig Hev Hin.
  unfold Routes.licensechain. rewrite Hval, Hsig, Hbody. cbn [get].
  rewrite !bind_lift_return. cbn [strict_neq]. rewrite strict_eq_refl. cbn [negb].
  rewrite Hev. cbn [ToString json_ToString]. rewrite bind_lift_return.
  unfold_route_handlers.
  unfold licensechain_dispatch in Hin. cbn [In] in Hin.
  split.
  - intros Hp. read_fields Hp (assoc "data" props).
    repeat (destruct Hin as [Hin|Hin];
            [injection Hin as <- <-; vm_compute; split; reflexivity|]).
    contradiction.
  - intros e He. rewrite He.
    repeat (destruct Hin as [Hin|Hin];
            [injection Hin as <- <-; vm_compute; split; reflexivity|]).
    contradiction.
Qed.

(** X13 on the scenario, signed in the route's format. *)
Lemma X13_witness :
  outcome (Routes.licensechain scenario_secret stale_route_request) = Return Routes.received
  /\ invoked (Routes.licensechain scenario_secret stale_route_request)
     = ["handleLicenseCreated"].
Proof.
  apply (X13_licensechain_reaches_the_handler scenario_secret stale_route_request
           [("event", JStr "license.created");
            ("data", JObj [("id", JStr "lic_1")]);
            ("timestamp", JStr "2024-01-01T00:00:00Z");
            ("sellerId", JStr "seller_1")]
           "license.created" "handleLicenseCreated").
  - reflexivity.
  - reflexivity.
  - vm_compute. reflexivity.
  - reflexivity.
  - cbn. tauto.
  - reflexivity.
Defined.

(** ** The Stripe route *)

(** X14: the Stripe route answers 500 to every request when no webhook
    secret is configured, and to every request whose body is a parsed JSON
    value other than a string (an object, an array, a number, a boolean or
    [null]), whatever the signature header holds. *)
Theorem X14_stripe_needs_secret_and_raw_body (JSON_parse : string -> completion json)
    (webhookSecret : option string) (hdrs : gmap string string)
    (payload : Routes.stripe_body) (v : json) :
  (forall s, v <> JStr s) ->
  Routes.stripe JSON_parse None hdrs payload = route_failed "Error processing Stripe webhook:"
  /\ Routes.stripe JSON_parse webhookSecret hdrs (Routes.ParsedBody v)
     = route_failed "Error processing Stripe webhook:".
Proof.
  intros Hv. split; [reflexivity|].
  destruct webhookSecret; [|reflexivity].
  destruct v; try reflexivity. exfalso. eapply Hv. reflexivity.
Qed.

(** X14 on an object body with the scenario's secret and no headers. *)
Lemma X14_witness :
  Routes.stripe stripe_parse None ∅ (Routes.ParsedBody scenario_body)
  = route_failed "Error processing Stripe webhook:"
  /\ Routes.stripe stripe_parse (Some scenario_secret) ∅ (Routes.ParsedBody scenario_body)
     = route_failed "Error processing Stripe webhook:".
Proof.
  apply (X14_stripe_needs_secret_and_raw_body stripe_parse (Some scenario_secret) ∅
           (Routes.ParsedBody scenario_body) scenario_body).
  intros s. discriminate.
Defined.

(** X15: the Stripe route answers 400 "Invalid signature" to every request
    whose [stripe-signature] header is absent or is not exactly the
    lowercase hexadecimal HMAC-SHA256 of the raw body under the secret; the
    body is not parsed before that: the answer is the same for every
    parser. *)
Theorem X15_stripe_rejects_before_parsing (JSON_parse : string -> completion json)
    (secret : string) (hdrs : gmap string string) (raw : Buffer) :
  hdrs !! "stripe-signature" <> Some (hex_encode (SHA256.hmac (utf8 secret) raw)) ->
  Routes.stripe JSON_parse (Some secret) hdrs (Routes.RawBody raw)
  = mkM [Log Warn "Invalid Stripe webhook signature"] (Return Routes.invalid_signature).
Proof.
  intros Hsig. unfold Routes.stripe. cbn [Routes.hmac_key Routes.hmac_data].
  rewrite !bind_lift_return.
  destruct (hdrs !! "stripe-signature") as [sig|]; [|reflexivity].
  cbn [strict_neq]. rewrite strict_eq_false by congruence. reflexivity.
Qed.

(** X15 on a request without a [stripe-signature] header. *)
Lemma X15_witness :
  Routes.stripe (fun _ => Return JNull) (Some scenario_secret) ∅
    (Routes.RawBody (utf8 spaced_body))
  = mkM [Log Warn "Invalid Stripe webhook signature"] (Return Routes.invalid_signature).
Proof.
  apply (X15_stripe_rejects_before_parsing (fun _ => Return JNull) scenario_secret ∅
           (utf8 spaced_body)).
  rewrite lookup_empty. discriminate.
Defined.

Lemma stripe_verified (JSON_parse : string -> completion json)
    (secret : string) (hdrs : gmap string string) (raw : Buffer) :
  hdrs !! "stripe-signature" = Some (hex_encode (SHA256.hmac (utf8 secret) raw)) ->
  Routes.stripe JSON_parse (Some secret) hdrs (Routes.RawBody raw)
  = try_catch
      (event ← lift (JSON_parse (string_of_list_byte raw));
       ty ← lift (get (Some event) "type");
       shown ← lift (ToString ty);
       log Info ("Stripe webhook received: " +:+ shown);;
       (if is_str ty "payment_intent.succeeded"
        then Routes.data_object event ≫= Routes.handlePaymentSucceeded
        else if is_str ty "payment_intent.payment_failed"
        then Routes.data_object event ≫= Routes.handlePaymentFailed
        else if is_str ty "customer.subscription.created"
        then Routes.data_object event ≫= Routes.handleSubscriptionCreated
        else if is_str ty "customer.subscription.updated"
        then Routes.data_object event ≫= Routes.handleSubscriptionUpdated
        else if is_str ty "customer.subscription.deleted"
        then Routes.data_object event ≫= Routes.handleSubscriptionDeleted
        else if is_str ty "invoice.payment_succeeded"
        then Routes.data_object event ≫= Routes.handleInvoicePaymentSucceeded
        else if is_str ty "invoice.payment_failed"
        then Routes.data_object event ≫= Routes.handleInvoicePaymentFailed
        else shown ← lift (ToString ty);
             log Info ("Unhandled Stripe event type: " +:+ shown));;
       mret Routes.received)
      (fun error => log Error "Error processing Stripe webhook:";; mret Routes.failed).
Proof.
  intros Hsig. unfold Routes.stripe. cbn [Routes.hmac_key Routes.hmac_data].
  rewrite !bind_lift_return. rewrite Hsig. cbn [strict_neq].
  rewrite strict_eq_refl. reflexivity.
Qed.

(** X16: on the Stripe route a request whose [stripe-signature] header is
    the hexadecimal HMAC of the raw body is answered 500 when the body does
    not parse as JSON or parses to [null]; when it parses to an object
    whose [type] is one of the registered kinds and whose [data.object] is
    neither [undefined] nor [null] and has only properties that convert to
    strings, exactly the handler that the [switch] names is entered and the
    answer is 200; when the [type] is a string that is not registered, no
    handler is entered and the answer is 200. *)
Theorem X16_stripe_after_verification (JSON_parse : string -> completion json)
    (secret : string) (hdrs : gmap string string) (raw : Buffer) :
  hdrs !! "stripe-signature" = Some (hex_encode (SHA256.hmac (utf8 secret) raw)) ->
  ((forall e, JSON_parse (string_of_list_byte raw) = Throw e ->
              Routes.stripe JSON_parse (Some secret) hdrs (Routes.RawBody raw)
              = route_failed "Error processing Stripe webhook:")
   /\ (JSON_parse (string_of_list_byte raw) = Return JNull ->
       Routes.stripe JSON_parse (Some secret) hdrs (Routes.RawBody raw)
       = route_failed "Error processing Stripe webhook:"))
  /\ (forall props dprops kind h,
         JSON_parse (string_of_list_byte raw) = Return (JObj props) ->
         assoc "type" props = Some (JStr kind) ->
         In (kind, h) stripe_dispatch ->
         assoc "data" props = Some (JObj dprops) ->
         fields_print (assoc "object" dprops) = true ->
         outcome (Routes.stripe JSON_parse (Some secret) hdrs (Routes.RawBody raw))
         = Return Routes.received
         /\ invoked (Routes.stripe JSON_parse (Some secret) hdrs (Routes.RawBody raw)) = [h])
  /\ (forall props kind,
         JSON_parse (string_of_list_byte raw) = Return (JObj props) ->
         assoc "type" props = Some (JStr kind) ->
         (forall h, ~ In (kind, h) stripe_dispatch) ->
         Routes.stripe JSON_parse (Some secret) hdrs (Routes.RawBody raw)
         = mkM [Log Info ("Stripe webhook received: " +:+ kind);
                Log Info ("Unhandled Stripe event type: " +:+ kind)]
               (Return Routes.received)).
Proof.
  intros Hsig. rewrite (stripe_verified JSON_parse secret hdrs raw Hsig).
  split; [split|split].
  - intros e ->. reflexivity.
  - intros ->. reflexivity.
  - intros props dprops kind h -> Hty Hin Hdata Hp.
    rewrite bind_lift_return. cbn [get]. rewrite bind_lift_return, Hty.
    cbn [ToString json_ToString]. rewrite bind_lift_return.
    unfold Routes.data_object. cbn [get]. rewrite Hdata.
    rewrite !bind_lift_return. cbn [get]. rewrite !bind_lift_return.
    unfold_route_handlers.
    unfold stripe_dispatch in Hin. cbn [In] in Hin.
    read_fields Hp (assoc "object" dprops).
    repeat (destruct Hin as [Hin|Hin];
            [injection Hin as <- <-; vm_compute; split; reflexivity|]).
    contradiction.
  - intros props kind -> Hty Hnot.
    rewrite bind_lift_return. cbn [get]. rewrite bind_lift_return, Hty.
    cbn [ToString json_ToString]. rewrite bind_lift_return.
    assert (Hk : forall k h, In (k, h) stripe_dispatch -> is_str (Some (JStr kind)) k = false).
    { intros k h Hin. apply is_str_false. intros [= ->]. exact (Hnot h Hin). }
    rewrite (Hk "payment_intent.succeeded" "handlePaymentSucceeded") by (cbn; tauto).
    rewrite (Hk "payment_intent.payment_failed" "handlePaymentFailed") by (cbn; tauto).
    rewrite (Hk "customer.subscription.created" "handleSubscriptionCreated") by (cbn; tauto).
    rewrite (Hk "customer.subscription.updated" "handleSubscriptionUpdated") by (cbn; tauto).
    rewrite (Hk "customer.subscription.deleted" "handleSubscriptionDeleted") by (cbn; tauto).
    rewrite (Hk "invoice.payment_succeeded" "handleInvoicePaymentSucceeded") by (cbn; tauto).
    rewrite (Hk "invoice.payment_failed" "handleInvoicePaymentFailed") by (cbn; tauto).
    rewrite bind_lift_return. reflexivity.
Qed.

(** X16 on an ["invoice.payment_failed"] event signed over its raw text. *)
Lemma X16_witness :
  outcome (Routes.stripe stripe_parse (Some scenario_secret)
             {[ "stripe-signature" := hex_encode (SHA256.hmac (utf8 scenario_secret) stripe_raw) ]}
             (Routes.RawBody stripe_raw))
  = Return Routes.received
  /\ invoked (Routes.stripe stripe_parse (Some scenario_secret)
                {[ "stripe-signature" := hex_encode (SHA256.hmac (utf8 scenario_secret) stripe_raw) ]}
                (Routes.RawBody stripe_raw))
     = ["handleInvoicePaymentFailed"].
Proof.
  destruct (X16_stripe_after_verification stripe_parse scenario_secret
              {[ "stripe-signature" := hex_encode (SHA256.hmac (utf8 scenario_secret) stripe_raw) ]}
              stripe_raw (lookup_singleton_eq _ _)) as (_ & Hdispatch & _).
  apply (Hdispatch [("type", JStr "invoice.payment_failed");
                    ("data", JObj [("object", JObj [("id", JStr "in_1")])])]
                   [("object", JObj [("id", JStr "in_1")])]
                   "invoice.payment_failed" "handleInvoicePaymentFailed").
  - reflexivity.
  - reflexivity.
  - cbn. tauto.
  - reflexivity.
  - reflexivity.
Defined.

(** X17: the Stripe route never throws and always answers, whatever the
    parser does: its response is 400 "Invalid signature", 200
    [{received: true}] or 500 "Webhook processing failed". *)
Theorem X17_stripe_always_answers (JSON_parse : string -> completion json)
    (webhookSecret : option string) (hdrs : gmap string string)
    (payload : Routes.stripe_body) :
  outcome (Routes.stripe JSON_parse webhookSecret hdrs payload) = Return Routes.invalid_signature
  \/ outcome (Routes.stripe JSON_parse webhookSecret hdrs payload) = Return Routes.received
  \/ outcome (Routes.stripe JSON_parse webhookSecret hdrs payload) = Return Routes.failed.
Proof.
  unfold Routes.stripe.
  destruct webhookSecret as [secret|]; [|right; right; reflexivity].
  destruct (Routes.hmac_data payload) as [bytes|e0]; [|right; right; reflexivity].
  cbn [Routes.hmac_key]. rewrite !bind_lift_return.
  destruct (strict_neq _ _); [left; reflexivity|right].
  destruct (JSON_parse (string_of_list_byte bytes)) as [event|e]; [|right; reflexivity].
  rewrite bind_lift_return.
  destruct (get (Some event) "type") as [ty|e]; [|right; reflexivity].
  rewrite bind_lift_return.
  destruct (ToString ty) as [shown|e]; [|right; reflexivity].
  rewrite bind_lift_return. apply logged_dispatch_is_answered.
Qed.

(** ** The middleware in front of the route *)

(** X18: no request passes both [verifyWebhook] and the LicenseChain route:
    a request for which the middleware calls [next()] enters no handler of
    the route and is not answered 200 by it, because the signature header
    that the one accepts is never the one that the other expects. *)
Theorem X18_middleware_and_route_never_agree (this : Utils.WebhookHandler) (secret : string)
    (req : Request) (now : Z) :
  outcome (Utils.verifyWebhook this req now) = Return NextCalled ->
  ~ handler_invoked (Routes.licensechain secret req)
  /\ outcome (Routes.licensechain secret req) <> Return Routes.received.
Proof.
  intros Hnext.
  destruct (verifyWebhook_next_needs_checks this req now Hnext)
    as (sig & ts & Hsig & _ & _ & _ & _ & Hmac).
  assert (Hne : headers req !! "x-licensechain-signature"
                <> Some ("sha256=" +:+ Routes.expectedSignature secret req)).
  { rewrite Hsig. intros H. apply (inj Some) in H. subst sig.
    rewrite prefixed_decodes_to_nothing in Hmac.
    apply (f_equal (@List.length byte)) in Hmac. rewrite hmac_length in Hmac. discriminate. }
  split.
  - intros Hinv. apply licensechain_dispatch_needs_signature in Hinv. tauto.
  - intros Hout. apply licensechain_received_needs_signature in Hout. contradiction.
Qed.

(** X18 on the scenario: accepted by the middleware, answered 400 by the
    route. *)
Lemma X18_witness :
  ~ handler_invoked (Routes.licensechain scenario_secret
                       (signed_request scenario_signature "1700000000" scenario_body))
  /\ outcome (Routes.licensechain scenario_secret
                (signed_request scenario_signature "1700000000" scenario_body))
     <> Return Routes.received.
Proof.
  apply (X18_middleware_and_route_never_agree scenario_handler scenario_secret
           (signed_request scenario_signature "1700000000" scenario_body) scenario_now).
  vm_compute. reflexivity.
Defined.
